(** * Storage runners, their registry and the public SQL execution endpoint

    A shallow embedding of

    - [redash/storage_runner/__init__.py]  ([BaseStorageRunner], [register_storage]),
    - [redash/storage_runner/minio.py]     ([MinioRunner]),
    - [redash/handlers/custom_sql_api.py]  ([PublicSQLExecutionResource]),

    together with the properties of these modules.

    Python values are an inductive type with the truthiness, membership and
    subscript operations the code relies on; exceptions are values of an
    error monad; the module-level registry dictionary is a [gmap] threaded
    through [register_storage]; the request handler runs in a writer/error
    monad whose trace records the calls made to the job queue. *)

From Stdlib Require Import ZArith Ascii String PrimFloat.
From Equations Require Import Equations.
From stdpp Require Import gmap strings list pretty.

Local Open Scope Z_scope.

(** ** Python values *)

(** The values that flow through the code: what [json] decoding produces and
    what dictionaries of configuration, rows and responses hold.  A [dict] is
    the sequence of its items in insertion order. *)
#[warnings="-register-all"]
Inductive value : Type :=
| PNone
| PBool (b : bool)
| PInt (n : Z)
| PFloat (f : float)
| PStr (s : string)
| PList (l : list value)
| PDict (d : list (string * value)).

Abbreviation dict := (list (string * value)).

(** An empty sequence or mapping ([len(x) == 0]). *)
Definition is_empty {A : Type} (l : list A) : bool :=
  match l with
  | [] => true
  | _ :: _ => false
  end.

(** [bool(v)]: the truth value Python gives [v] in [if v], [not v] and [v or w]. *)
Definition truthy (v : value) : bool :=
  match v with
  | PNone => false
  | PBool b => b
  | PInt n => negb (n =? 0)
  | PFloat f => negb (PrimFloat.eqb f PrimFloat.zero)
  | PStr s => negb (String.eqb s "")
  | PList l => negb (is_empty l)
  | PDict d => negb (is_empty d)
  end.

(** [a or b]: [a] when it is truthy, otherwise [b]. *)
Definition py_or (a b : value) : value :=
  if truthy a then a else b.

(** ** Exceptions *)

(** The exception classes the code tells apart or raises itself; any other
    class is [OtherError] with its name.  All of them derive from Python's
    [Exception], which is what the [except Exception] clauses catch. *)
Inductive exn_class : Type :=
| Exception
| ProgrammingError
| KeyError
| TypeError
| AttributeError
| OtherError (cls : string).

(** An exception instance: its class and [str(e)]. *)
Record exn : Type := Exn { exn_cls : exn_class; exn_msg : string }.

(** A call either returns or raises. *)
Inductive result (A : Type) : Type :=
| Returns (a : A)
| Raises (e : exn).
Arguments Returns {A} a.
Arguments Raises {A} e.

(** Sequencing: the first exception raised ends the computation. *)
#[global] Instance result_ret : MRet result := fun _ a => Returns a.
#[global] Instance result_bind : MBind result := fun _ _ k m =>
  match m with
  | Returns a => k a
  | Raises e => Raises e
  end.

(** [try: body / except Exception as e: handler e]. *)
Definition try_except {A : Type} (body : result A) (handler : exn -> result A) : result A :=
  match body with
  | Returns a => Returns a
  | Raises e => handler e
  end.

Definition raised {A : Type} (r : result A) : bool :=
  match r with
  | Returns _ => false
  | Raises _ => true
  end.

(** ** Strings *)

(** [needle in hay] for two strings: [needle] occurs as a contiguous run. *)
Fixpoint str_contains (needle hay : string) : bool :=
  String.prefix needle hay ||
  match hay with
  | EmptyString => false
  | String _ hay' => str_contains needle hay'
  end.

(** The name Python prints for the type of a value in error messages. *)
Definition type_name (v : value) : string :=
  match v with
  | PNone => "NoneType"
  | PBool _ => "bool"
  | PInt _ => "int"
  | PFloat _ => "float"
  | PStr _ => "str"
  | PList _ => "list"
  | PDict _ => "dict"
  end.

(** ** Dictionaries *)

(** The value stored under [key], if any. *)
Fixpoint dict_lookup (key : string) (d : dict) : option value :=
  match d with
  | [] => None
  | (k, v) :: d' => if String.eqb k key then Some v else dict_lookup key d'
  end.

(** [d.get(key, default)] on a dictionary. *)
Definition dict_get (d : dict) (key : string) (default : value) : value :=
  match dict_lookup key d with
  | Some v => v
  | None => default
  end.

(** [list(d)]: the keys of a dictionary. *)
Definition dict_keys (d : dict) : list string := map fst d.

Definition is_str (s : string) (v : value) : bool :=
  match v with
  | PStr s' => String.eqb s' s
  | _ => false
  end.

(** [key in container] for a string [key]. *)
Definition py_in (key : string) (container : value) : result bool :=
  match container with
  | PDict d => Returns (match dict_lookup key d with Some _ => true | None => false end)
  | PList l => Returns (existsb (is_str key) l)
  | PStr s => Returns (str_contains key s)
  | v => Raises (Exn TypeError ("argument of type '" +:+ type_name v +:+ "' is not iterable"))
  end.

(** [obj.get(key, default)]: only a dictionary has the method. *)
Definition py_get (obj : value) (key : string) (default : value) : result value :=
  match obj with
  | PDict d => Returns (dict_get d key default)
  | v => Raises (Exn AttributeError ("'" +:+ type_name v +:+ "' object has no attribute 'get'"))
  end.

(** [obj[key]] for a string [key]. *)
Definition py_getitem (obj : value) (key : string) : result value :=
  match obj with
  | PDict d =>
      match dict_lookup key d with
      | Some v => Returns v
      | None => Raises (Exn KeyError ("'" +:+ key +:+ "'"))
      end
  | PList _ => Raises (Exn TypeError "list indices must be integers or slices, not str")
  | PStr _ => Raises (Exn TypeError "string indices must be integers")
  | v => Raises (Exn TypeError ("'" +:+ type_name v +:+ "' object is not subscriptable"))
  end.

(** The library functions the modules call and do not define: Python's
    [str()] on a value (used by the f-strings of the error messages) and
    [redash.utils.json_loads]. *)
Class Builtins : Type := {
  py_str : value -> string;
  json_loads : string -> result value;
}.

(** ** [redash/storage_runner/__init__.py] *)

Module StorageRunner.

Definition TYPE_STRING : string := "string".
Definition TYPE_DATE : string := "date".
Definition TYPE_INTEGER : string := "integer".

(** A runner class as the registry sees it: the class object, told apart by
    its qualified name, with what its class methods [enabled()], [name()]
    and [type()] return. *)
Record runner_class : Type := RunnerClass {
  qualname : string;
  enabled : bool;
  name : string;
  type : string;
}.

(** The abstract methods of [BaseStorageRunner] and the configuration every
    runner instance carries.  The parameter [bucket_name=None] of
    [list_objects] is passed explicitly: [self.list_objects()] is
    [list_objects self PNone]. *)
Class BaseStorageRunner (R : Type) : Type := {
  configuration : R -> dict;
  list_objects : R -> value -> result (list value);
  get_metadata : R -> value -> result value;
}.

(** [BaseStorageRunner.configuration_schema]. *)
Definition configuration_schema : value :=
  PDict
    [("type", PStr "object");
     ("properties",
      PDict
        [("endpoint", PDict [("type", PStr "string"); ("title", PStr "Endpoint URL")]);
         ("access_key", PDict [("type", PStr "string"); ("title", PStr "Access Key")]);
         ("secret_key", PDict [("type", PStr "string"); ("title", PStr "Secret Key")]);
         ("bucket", PDict [("type", PStr "string"); ("title", PStr "Bucket Name")]);
         ("region", PDict [("type", PStr "string"); ("title", PStr "Region");
                           ("default", PStr "us-east-1")]);
         ("secure", PDict [("type", PStr "boolean"); ("title", PStr "Use SSL?");
                           ("default", PBool false)])]);
     ("secret", PList [PStr "secret_key"]);
     ("order", PList [PStr "endpoint"; PStr "access_key"; PStr "secret_key";
                      PStr "bucket"; PStr "region"; PStr "secure"]);
     ("required", PList [PStr "endpoint"; PStr "access_key"; PStr "secret_key";
                         PStr "bucket"])].

Section Base.
Context `{Builtins} {R : Type} `{BaseStorageRunner R}.

(** [BaseStorageRunner.test_connection]. *)
Definition test_connection (self : R) : result bool :=
  try_except
    (_ ← list_objects self PNone;
     mret true)
    (fun e => Raises (Exn Exception ("Failed to connect to the storage: " +:+ exn_msg e))).

(** The row [BaseStorageRunner.run_query] builds for one listed object. *)
Definition row_of (obj : value) : result value :=
  object_name ← py_getitem obj "name";
  last_modified ← py_getitem obj "last_modified";
  mret (PDict [("object_name", object_name); ("last_modified", last_modified)]).

(** [BaseStorageRunner.run_query]: the pair [(data, error)]. *)
Definition run_query (self : R) (query : string) (user : value) : result (value * value) :=
  try_except
    (query_params ← json_loads query;
     bucket_name ← py_get query_params "bucket" (dict_get (configuration self) "bucket" PNone);
     objects ← list_objects self bucket_name;
     let columns :=
       [PDict [("name", PStr "object_name"); ("type", PStr TYPE_STRING)];
        PDict [("name", PStr "last_modified"); ("type", PStr TYPE_DATE)]] in
     rows ← mapM row_of objects;
     mret (PDict [("columns", PList columns); ("rows", PList rows)], PNone))
    (fun e => mret (PNone, PStr (exn_msg e))).

End Base.

(** [storage_runners], the module-level registry, is passed in and returned:
    a call of [register_storage] maps the registry before it to the registry
    after it.  The two log lines have no effect on it. *)
Definition register_storage (storage_runner_class : runner_class)
    (storage_runners : gmap string runner_class) : gmap string runner_class :=
  if enabled storage_runner_class
  then <[type storage_runner_class := storage_runner_class]> storage_runners
  else storage_runners.

End StorageRunner.

(** ** [redash/storage_runner/minio.py] *)

Module Minio.

(** An object as the MinIO client reports it. *)
Record MinioObject : Type := {
  object_name : value;
  last_modified : value;
  size : value;
  etag : value;
  content_type : value;
}.

(** The client library's handle: the two calls the runner makes. *)
Record MinioClient : Type := {
  client_list_objects : value -> result (list MinioObject);
  client_stat_object : value -> value -> result MinioObject;
}.

(** A [MinioRunner] instance: the configuration it was built from and the
    client [__init__] made of it. *)
Record MinioRunner : Type := {
  configuration : dict;
  client : MinioClient;
}.

(** The class object; [minio_importable] is the module's [enabled] flag,
    set by whether [from minio import Minio] succeeded. *)
Definition MinioRunner_class (minio_importable : bool) : StorageRunner.runner_class :=
  {| StorageRunner.qualname := "redash.storage_runner.minio.MinioRunner";
     StorageRunner.enabled := minio_importable;
     StorageRunner.name := "MinIO";
     StorageRunner.type := "minio" |}.

(** The name [Minio] in the module: the client library's constructor when
    [from minio import Minio] succeeded, unbound when it raised
    [ImportError].  The constructor takes the endpoint, [access_key],
    [secret_key], [secure] and [region]. *)
Definition library : Type :=
  option (value -> value -> value -> value -> value -> result MinioClient).

(** The module's [enabled] flag, as the [try]/[except ImportError] sets it. *)
Definition enabled (Minio : library) : bool :=
  match Minio with
  | Some _ => true
  | None => false
  end.

(** [MinioRunner.__init__]: the base class stores the configuration, then
    the client is built from it.  An unbound [Minio] is a [NameError]. *)
Definition __init__ (Minio : library) (configuration : dict) : result MinioRunner :=
  match Minio with
  | None => Raises (Exn (OtherError "NameError") "name 'Minio' is not defined")
  | Some Minio =>
      endpoint ← py_getitem (PDict configuration) "endpoint";
      access_key ← py_getitem (PDict configuration) "access_key";
      secret_key ← py_getitem (PDict configuration) "secret_key";
      client ← Minio endpoint access_key secret_key
                 (dict_get configuration "secure" (PBool false))
                 (dict_get configuration "region" PNone);
      mret {| configuration := configuration; client := client |}
  end.

(** The statement [register_storage(MinioRunner)] that ends the module:
    what importing the module does to the registry. *)
Definition register_MinioRunner (Minio : library)
    (storage_runners : gmap string StorageRunner.runner_class) :
    gmap string StorageRunner.runner_class :=
  StorageRunner.register_storage (MinioRunner_class (enabled Minio)) storage_runners.

Section Runner.
Context `{Builtins}.

(** The [try] block of [list_objects], once [bucket_name] is settled: the
    client's listing of that bucket as dictionaries, any failure re-raised
    as one [Exception] with a descriptive message. *)
Definition list_bucket (self : MinioRunner) (bucket_name : value) : result (list value) :=
  try_except
    (objects ← client_list_objects (client self) bucket_name;
     mret (map (fun obj =>
                  PDict [("name", object_name obj);
                         ("last_modified", last_modified obj);
                         ("size", size obj);
                         ("etag", etag obj)]) objects))
    (fun e => Raises (Exn Exception
       ("Failed to list objects from bucket " +:+ py_str bucket_name +:+ ": " +:+ exn_msg e))).

Definition list_objects (self : MinioRunner) (bucket_name : value) : result (list value) :=
  let bucket_name := py_or bucket_name (dict_get (configuration self) "bucket" PNone) in
  list_bucket self bucket_name.

Definition get_metadata (self : MinioRunner) (object_name_ : value) : result value :=
  let bucket_name := dict_get (configuration self) "bucket" PNone in
  try_except
    (obj ← client_stat_object (client self) bucket_name object_name_;
     mret (PDict [("name", object_name obj);
                  ("size", size obj);
                  ("etag", etag obj);
                  ("content_type", content_type obj);
                  ("last_modified", last_modified obj)]))
    (fun e => Raises (Exn Exception
       ("Failed to retrieve metadata for object " +:+ py_str object_name_ +:+ ": " +:+ exn_msg e))).

Definition test_connection (self : MinioRunner) : result bool :=
  try_except
    (_ ← list_objects self PNone;
     mret true)
    (fun e => Raises (Exn Exception ("MinIO connection test failed: " +:+ exn_msg e))).

(** The row [MinioRunner.run_query] builds for one listed object. *)
Definition row_of (obj : value) : result value :=
  object_name ← py_getitem obj "name";
  last_modified ← py_getitem obj "last_modified";
  size ← py_getitem obj "size";
  etag ← py_getitem obj "etag";
  mret (PDict [("object_name", object_name); ("last_modified", last_modified);
               ("size", size); ("etag", etag)]).

Definition columns : list value :=
  [PDict [("name", PStr "object_name"); ("type", PStr "string")];
   PDict [("name", PStr "last_modified"); ("type", PStr "date")];
   PDict [("name", PStr "size"); ("type", PStr "integer")];
   PDict [("name", PStr "etag"); ("type", PStr "string")]].

(** The rest of [run_query] once the objects are listed (or listing raised):
    the table with one row per object, or the error string. *)
Definition tabulate (listing : result (list value)) : result (value * value) :=
  try_except
    (objects ← listing;
     rows ← mapM row_of objects;
     mret (PDict [("columns", PList columns); ("rows", PList rows)], PNone))
    (fun e => mret (PNone, PStr (exn_msg e))).

Definition run_query (self : MinioRunner) (query : string) (user : value) : result (value * value) :=
  try_except
    (query_params ← json_loads query;
     bucket_name ← py_get query_params "bucket" (dict_get (configuration self) "bucket" PNone);
     objects ← list_objects self bucket_name;
     rows ← mapM row_of objects;
     mret (PDict [("columns", PList columns); ("rows", PList rows)], PNone))
    (fun e => mret (PNone, PStr (exn_msg e))).

(** [MinioRunner] implements the abstract methods of [BaseStorageRunner]. *)
#[global] Instance MinioRunner_storage : StorageRunner.BaseStorageRunner MinioRunner := {|
  StorageRunner.configuration := configuration;
  StorageRunner.list_objects := list_objects;
  StorageRunner.get_metadata := get_metadata;
|}.

End Runner.

End Minio.

(** ** [redash/handlers/custom_sql_api.py] *)

Module CustomSqlApi.

(** A row of [models.DataSource]: a configured backend. *)
Record DataSource : Type := {
  ds_id : Z;
  ds_name : string;
  ds_type : string;
}.

(** A row of [models.QueryResult]; [data] is the stored result dictionary. *)
Record QueryResult : Type := {
  qr_id : Z;
  data : value;
}.

(** What the handler does to the job queue and the clock. *)
Inductive event : Type :=
| EnqueueQuery (query : value) (data_source : DataSource)
| Sleep (seconds : Z)
| Refresh.

(** The collaborators of the handler: the request, the two model tables,
    the job queue and the serializer of [redash.serializers].  [Job] is the
    state of an rq job as the handler holds it; [job_refresh] is
    [job.refresh()], giving the state it holds afterwards; [serialize_job]
    is the call that builds the argument of the log line after the wait
    loop.  Each call returns or raises.  The log lines themselves write to
    the log and give nothing back to the handler; only the evaluation of
    their arguments is kept. *)
Class Services (Job : Type) : Type := {
  request_get_json : result value;
  DataSource_first : value -> result (option DataSource);
  enqueue_query : value -> DataSource -> result Job;
  job_result : Job -> value;
  job_refresh : Job -> result Job;
  serialize_job : Job -> result value;
  QueryResult_get : value -> result (option QueryResult);
}.

(** A computation of the handler: the events so far, and a value or the
    exception that ended it. *)
Definition io (A : Type) : Type := list event * result A.

#[global] Instance io_ret : MRet io := fun _ a => ([], Returns a).
#[global] Instance io_bind : MBind io := fun _ _ k m =>
  match m with
  | (t, Returns a) => let '(t', r) := k a in (t ++ t', r)
  | (t, Raises e) => (t, Raises e)
  end.

(** A call that leaves no event. *)
Definition call {A : Type} (r : result A) : io A := ([], r).

(** A call recorded as [e]. *)
Definition traced {A : Type} (e : event) (r : result A) : io A := ([e], r).

Definition is_None (v : value) : bool :=
  match v with
  | PNone => true
  | _ => false
  end.

Inductive error_key : Type :=
| missing_fields
| missing_query
| missing_db_name
| database_not_found
| query_timeout
| query_execution_failed
| sql_syntax_error
| internal_server_error.

Definition error_messages (key : error_key) : string :=
  match key with
  | missing_fields => "Request must include 'query' and 'db_name' fields."
  | missing_query => "Request must include 'query' fields."
  | missing_db_name => "Request must include 'db_name' fields."
  | database_not_found => "Database name not found."
  | query_timeout => "Query execution timeout."
  | query_execution_failed => "Query execution failed."
  | sql_syntax_error => "SQL syntax error."
  | internal_server_error => "Internal server error occurred. Please try again later."
  end.

(** A response: the JSON body and the HTTP status. *)
Definition response : Type := value * Z.

Definition error_response (message : string) (http_status : Z) : response :=
  (PDict [("status", PStr "fail"); ("message", PStr message)], http_status).

(** A value together with the proof that it is the value of [x]: lets the
    loop below keep its test as a fact in the branch taken. *)
Definition inspect {A : Type} (x : A) : {y : A | x = y} := exist _ x eq_refl.

(** The two [except] clauses of [post]: a [ProgrammingError] is reported as
    a syntax error, any other exception as an internal error. *)
Definition handle_exception (e : exn) : response :=
  match exn_cls e with
  | ProgrammingError => error_response (error_messages sql_syntax_error) 400
  | _ => error_response (error_messages internal_server_error) 500
  end.

(** [try: body / except ProgrammingError: ... / except Exception: ...]. *)
Definition try_respond (body : io response) : list event * response :=
  match body with
  | (t, Returns r) => (t, r)
  | (t, Raises e) => (t, handle_exception e)
  end.

Section Handler.
Context {Job : Type} `{Services Job}.

(** The wait loop of [post]:
    [while job.result is None and try_count < 10]. *)
Equations? poll (job : Job) (try_count : Z) : io (Job * Z)
  by wf (Z.to_nat (10 - try_count)) lt :=
poll job try_count with inspect (is_None (job_result job) && (try_count <? 10)) := {
  | exist _ true Hcond :=
      let try_count := try_count + 1 in
      _ ← traced (Sleep 1) (Returns tt);
      job ← traced Refresh (job_refresh job);
      poll job try_count;
  | exist _ false Hcond := mret (job, try_count) }.
Proof.
  apply andb_prop in Hcond as [_ Hlt]. lia.
Qed.

(** [PublicSQLExecutionResource.post]: the events it causes and the
    response it returns.  [serialize_job(job)] is evaluated inside the
    [try], between the wait loop and the timeout test: it reads the job,
    causes no event on the queue or the clock, and an exception it raises
    is answered by the [except] clauses like any other. *)
Definition post : list event * response :=
  try_respond
    (query_data ← call request_get_json;
     if negb (truthy query_data)
     then mret (error_response (error_messages missing_fields) 400) else
     has_query ← call (py_in "query" query_data);
     if negb has_query
     then mret (error_response (error_messages missing_query) 400) else
     has_db_name ← call (py_in "db_name" query_data);
     if negb has_db_name
     then mret (error_response (error_messages missing_db_name) 400) else
     query_text ← call (py_get query_data "query" PNone);
     db_name ← call (py_get query_data "db_name" PNone);
     data_source ← call (DataSource_first db_name);
     match data_source with
     | None => mret (error_response (error_messages database_not_found) 404)
     | Some data_source =>
         job ← traced (EnqueueQuery query_text data_source)
                      (enqueue_query query_text data_source);
         '(job, try_count) ← poll job 0;
         _ ← call (serialize_job job);
         if is_None (job_result job)
         then mret (error_response (error_messages query_timeout) 408) else
         let query_result_id := job_result job in
         query_result ← call (QueryResult_get query_result_id);
         match query_result with
         | Some query_result =>
             rows ← call (py_getitem (data query_result) "rows");
             mret (PDict [("status", PStr "success"); ("result", rows)], 200)
         | None => mret (error_response (error_messages query_execution_failed) 500)
         end
     end).

End Handler.

End CustomSqlApi.

(** ** Vocabulary of the properties *)

(** [m] occurs in [s]: the meaning of "the message contains the cause". *)
Definition occurs_in (m s : string) : Prop :=
  exists pre post : string, s = pre +:+ m +:+ post.

(** The names a [columns] list declares. *)
Definition declared_names (columns : list value) : list string :=
  omap (fun column =>
          match column with
          | PDict d =>
              match dict_lookup "name" d with
              | Some (PStr n) => Some n
              | _ => None
              end
          | _ => None
          end) columns.

(** A row whose keys are exactly [names]. *)
Definition row_has_keys (names : list string) (row : value) : Prop :=
  exists items : dict, row = PDict items /\ dict_keys items = names.

(** The dictionary [list_objects] makes of a client object, and the row
    [run_query] makes of that dictionary. *)
Definition listed (obj : Minio.MinioObject) : value :=
  PDict [("name", Minio.object_name obj);
         ("last_modified", Minio.last_modified obj);
         ("size", Minio.size obj);
         ("etag", Minio.etag obj)].

Definition row (obj : Minio.MinioObject) : value :=
  PDict [("object_name", Minio.object_name obj);
         ("last_modified", Minio.last_modified obj);
         ("size", Minio.size obj);
         ("etag", Minio.etag obj)].

(** The table [MinioRunner.run_query] returns for the rows [rows]. *)
Definition table (rows : list value) : value :=
  PDict [("columns", PList Minio.columns); ("rows", PList rows)].


(** The state of a job after [n] calls of [job.refresh()], when none raised. *)
Fixpoint after_refreshes {Job : Type} `{CustomSqlApi.Services Job}
    (n : nat) (job : Job) : result Job :=
  match n with
  | O => Returns job
  | S n' => job' ← CustomSqlApi.job_refresh job; after_refreshes n' job'
  end.

(** The job shows no result reference after each of the first [n] refreshes
    (and before the first). *)
Definition pending_through {Job : Type} `{CustomSqlApi.Services Job}
    (n : nat) (job : Job) : Prop :=
  forall i : nat, (i <= n)%nat ->
    exists job_i : Job,
      after_refreshes i job = Returns job_i /\ CustomSqlApi.job_result job_i = PNone.

(** [k] rounds of the wait loop: sleep one second, then refresh. *)
Definition rounds (k : nat) : list CustomSqlApi.event :=
  concat (replicate k [CustomSqlApi.Sleep 1; CustomSqlApi.Refresh]).

Definition is_enqueue (e : CustomSqlApi.event) : bool :=
  match e with
  | CustomSqlApi.EnqueueQuery _ _ => true
  | _ => false
  end.

(** No unit of work was put on the queue. *)
Definition never_enqueues (trace : list CustomSqlApi.event) : Prop :=
  existsb is_enqueue trace = false.

(** Every key of the registry is the [type()] of the class stored under it. *)
Definition keyed_by_type (storage_runners : gmap string StorageRunner.runner_class) : Prop :=
  forall (k : string) (c : StorageRunner.runner_class),
    storage_runners !! k = Some c -> StorageRunner.type c = k.

(** The strings of a list value. *)
Definition str_items (v : value) : list string :=
  match v with
  | PList l => omap (fun x => match x with PStr n => Some n | _ => None end) l
  | _ => []
  end.

(** The names a schema lists under [key] ("order", "required", "secret"). *)
Definition schema_list (key : string) (schema : value) : list string :=
  match schema with
  | PDict d => str_items (dict_get d key PNone)
  | _ => []
  end.

(** The fields a schema describes under "properties". *)
Definition schema_fields (schema : value) : list string :=
  match schema with
  | PDict d =>
      match dict_get d "properties" PNone with
      | PDict fields => dict_keys fields
      | _ => []
      end
  | _ => []
  end.

(** The fields a schema gives a default for. *)
Definition schema_defaulted (schema : value) : list string :=
  match schema with
  | PDict d =>
      match dict_get d "properties" PNone with
      | PDict fields =>
          omap (fun '(name, description) =>
                  match description with
                  | PDict entries =>
                      match dict_lookup "default" entries with
                      | Some _ => Some name
                      | None => None
                      end
                  | _ => None
                  end) fields
      | _ => []
      end
  | _ => []
  end.

(** The HTTP status [post] sends with each of its messages. *)
Definition status_of (key : CustomSqlApi.error_key) : Z :=
  match key with
  | CustomSqlApi.missing_fields => 400
  | CustomSqlApi.missing_query => 400
  | CustomSqlApi.missing_db_name => 400
  | CustomSqlApi.database_not_found => 404
  | CustomSqlApi.query_timeout => 408
  | CustomSqlApi.query_execution_failed => 500
  | CustomSqlApi.sql_syntax_error => 400
  | CustomSqlApi.internal_server_error => 500
  end.

(** The keys [post] can answer with before anything is enqueued. *)
Definition early_key (key : CustomSqlApi.error_key) : Prop :=
  key <> CustomSqlApi.query_timeout /\ key <> CustomSqlApi.query_execution_failed.

(** The two shapes of a response: success with the rows and 200, or
    failure with one of the messages and the status that goes with it. *)
Definition well_formed_response (r : CustomSqlApi.response) : Prop :=
  (exists rows : value,
     r = (PDict [("status", PStr "success"); ("result", rows)], 200)) \/
  (exists key : CustomSqlApi.error_key,
     r = CustomSqlApi.error_response (CustomSqlApi.error_messages key) (status_of key)).

(** The events of a request: none, or one enqueue followed by [k] rounds
    of the wait loop. *)
Definition trace_shape (trace : list CustomSqlApi.event) (k : nat) : Prop :=
  (trace = [] /\ k = O) \/
  (exists (query : value) (data_source : CustomSqlApi.DataSource),
     trace = CustomSqlApi.EnqueueQuery query data_source :: rounds k).

(** The seconds slept in a trace. *)
Definition seconds_slept (trace : list CustomSqlApi.event) : Z :=
  foldr (fun e acc => match e with CustomSqlApi.Sleep n => n + acc | _ => acc end) 0 trace.

(** ** Sample data

    The fixtures of [tests/storage_runner/test_minio.py] and small request
    scenarios, used to run the definitions on concrete inputs. *)

Module Samples.

(** The double quote character. *)
Definition dq : string := String (ascii_of_nat 34) EmptyString.

(** The command [{"bucket": "test"}] of the tests. *)
Definition query_test : string :=
  "{" +:+ dq +:+ "bucket" +:+ dq +:+ ": " +:+ dq +:+ "test" +:+ dq +:+ "}".

(** The command [{"bucket": ""}]: an explicit, empty bucket name. *)
Definition query_empty_bucket : string :=
  "{" +:+ dq +:+ "bucket" +:+ dq +:+ ": " +:+ dq +:+ dq +:+ "}".

(** [str()] on [None], booleans, integers and strings, and the decoder's
    results on the commands above; anything else is not a JSON document
    here. *)
#[export] Instance builtins : Builtins := {|
  py_str v :=
    match v with
    | PNone => "None"
    | PBool true => "True"
    | PBool false => "False"
    | PInt n => pretty n
    | PStr s => s
    | v => "<" +:+ type_name v +:+ ">"
    end;
  json_loads s :=
    if String.eqb s query_test then Returns (PDict [("bucket", PStr "test")])
    else if String.eqb s query_empty_bucket then Returns (PDict [("bucket", PStr "")])
    else if String.eqb s "{}" then Returns (PDict [])
    else if String.eqb s "[]" then Returns (PList [])
    else Raises (Exn (OtherError "JSONDecodeError")
                     "Expecting value: line 1 column 1 (char 0)");
|}.

Definition config : dict :=
  [("endpoint", PStr "mock.endpoint");
   ("access_key", PStr "mock_access_key");
   ("secret_key", PStr "mock_secret_key");
   ("bucket", PStr "mock_bucket");
   ("region", PStr "mock_region");
   ("secure", PBool false)].

Definition file1 : Minio.MinioObject :=
  {| Minio.object_name := PStr "file1.txt";
     Minio.last_modified := PStr "2023-09-09";
     Minio.size := PInt 123;
     Minio.etag := PStr "etag1";
     Minio.content_type := PStr "text/plain" |}.

Definition file2 : Minio.MinioObject :=
  {| Minio.object_name := PStr "file2.txt";
     Minio.last_modified := PStr "2023-09-10";
     Minio.size := PInt 456;
     Minio.etag := PStr "etag2";
     Minio.content_type := PStr "text/plain" |}.

(** A store with two buckets: ["mock_bucket"] holds both files, ["test"]
    holds the first. *)
Definition mock_client : Minio.MinioClient :=
  {| Minio.client_list_objects bucket :=
       if is_str "mock_bucket" bucket then Returns [file1; file2]
       else if is_str "test" bucket then Returns [file1]
       else Raises (Exn (OtherError "S3Error") "NoSuchBucket");
     Minio.client_stat_object bucket object_name :=
       if is_str "file1.txt" object_name then Returns file1
       else Raises (Exn (OtherError "S3Error") "NoSuchKey") |}.

(** A store that cannot be reached. *)
Definition failing_client : Minio.MinioClient :=
  {| Minio.client_list_objects _ := Raises (Exn Exception "Failed to connect");
     Minio.client_stat_object _ _ := Raises (Exn Exception "Failed to connect") |}.

Definition runner : Minio.MinioRunner :=
  {| Minio.configuration := config; Minio.client := mock_client |}.

Definition unreachable_runner : Minio.MinioRunner :=
  {| Minio.configuration := config; Minio.client := failing_client |}.

(** The patched constructor of the tests: whatever the arguments, the mock
    client. *)
Definition mock_Minio : Minio.library := Some (fun _ _ _ _ _ => Returns mock_client).

(** A second class that reports the type ["minio"]. *)
Definition OtherMinioRunner_class : StorageRunner.runner_class :=
  {| StorageRunner.qualname := "tests.OtherMinioRunner";
     StorageRunner.enabled := true;
     StorageRunner.name := "Other MinIO";
     StorageRunner.type := "minio" |}.

(** A class of the same type whose dependency is missing. *)
Definition DisabledRunner_class : StorageRunner.runner_class :=
  {| StorageRunner.qualname := "tests.DisabledRunner";
     StorageRunner.enabled := false;
     StorageRunner.name := "Disabled MinIO";
     StorageRunner.type := "minio" |}.

Definition first_match {A : Type} (p : A -> bool) (l : list A) : option A :=
  head (filter (fun a => p a = true) l).

(** A deployment for the handler: the request body, the configured data
    sources, a job that shows the result reference [42] from its
    [ready_after]-th refresh on, and the stored query results.  The job
    state is the number of refreshes so far, and the job always serializes
    for the log line. *)
Definition services (body : result value)
    (sources : list CustomSqlApi.DataSource) (ready_after : nat)
    (results : list CustomSqlApi.QueryResult) : CustomSqlApi.Services nat :=
  {| CustomSqlApi.request_get_json := body;
     CustomSqlApi.DataSource_first db_name :=
       Returns (first_match
                  (fun ds => is_str (CustomSqlApi.ds_name ds) db_name) sources);
     CustomSqlApi.enqueue_query _ _ := Returns 0%nat;
     CustomSqlApi.job_result j := if (j <? ready_after)%nat then PNone else PInt 42;
     CustomSqlApi.job_refresh j := Returns (S j);
     CustomSqlApi.serialize_job j :=
       Returns (PDict [("job", PDict [("query_result_id",
                                       if (j <? ready_after)%nat then PNone else PInt 42)])]);
     CustomSqlApi.QueryResult_get id :=
       Returns (first_match
                  (fun qr => match id with
                             | PInt n => CustomSqlApi.qr_id qr =? n
                             | _ => false
                             end) results) |}.

Definition warehouse : CustomSqlApi.DataSource :=
  {| CustomSqlApi.ds_id := 1; CustomSqlApi.ds_name := "warehouse";
     CustomSqlApi.ds_type := "pg" |}.

Definition stored_rows : value :=
  PList [PDict [("object_name", PStr "file1.txt"); ("size", PInt 123)]].

Definition stored_result : CustomSqlApi.QueryResult :=
  {| CustomSqlApi.qr_id := 42;
     CustomSqlApi.data := PDict [("columns", PList []); ("rows", stored_rows)] |}.

Definition body_ok : value :=
  PDict [("query", PStr "select 1"); ("db_name", PStr "warehouse")].

(** The job shows its result at the second refresh. *)
Definition prompt_services : CustomSqlApi.Services nat :=
  services (Returns body_ok) [warehouse] 2 [stored_result].

(** The job never shows a result within the budget. *)
Definition stuck_services : CustomSqlApi.Services nat :=
  services (Returns body_ok) [warehouse] 11 [stored_result].

(** The job is done at once, and nothing is stored under its reference. *)
Definition lost_result_services : CustomSqlApi.Services nat :=
  services (Returns body_ok) [warehouse] 0 [].

(** No data source is configured. *)
Definition unknown_db_services : CustomSqlApi.Services nat :=
  services (Returns body_ok) [] 0 [].

(** The body [{"foo": 1}]: neither field is there. *)
Definition foo_services : CustomSqlApi.Services nat :=
  services (Returns (PDict [("foo", PInt 1)])) [warehouse] 0 [stored_result].

(** The body [{"query": "x"}]. *)
Definition query_only_services : CustomSqlApi.Services nat :=
  services (Returns (PDict [("query", PStr "x")])) [warehouse] 0 [stored_result].

(** The registry once [redash.storage_runner.minio] is imported. *)
Definition storage_runners : gmap string StorageRunner.runner_class :=
  StorageRunner.register_storage (Minio.MinioRunner_class true) ∅.


(** A client that knows the bucket ["mock_bucket"] only. *)
Definition single_bucket_client : Minio.MinioClient :=
  {| Minio.client_list_objects bucket :=
       if is_str "mock_bucket" bucket then Returns [file1; file2]
       else Raises (Exn (OtherError "S3Error") "AccessDenied");
     Minio.client_stat_object _ _ := Raises (Exn (OtherError "S3Error") "AccessDenied") |}.

(** A runner class that inherits [run_query] and whose [list_objects]
    reports sizes only. *)
Definition sizes_only_storage : StorageRunner.BaseStorageRunner unit :=
  {| StorageRunner.configuration _ := [];
     StorageRunner.list_objects _ _ := Returns [PDict [("size", PInt 1)]];
     StorageRunner.get_metadata _ _ := Returns PNone |}.


(** A stored result whose data has no ["rows"]. *)
Definition rowless_result : CustomSqlApi.QueryResult :=
  {| CustomSqlApi.qr_id := 42; CustomSqlApi.data := PDict [("columns", PList [])] |}.

Definition rowless_services : CustomSqlApi.Services nat :=
  services (Returns body_ok) [warehouse] 0 [rowless_result].

(** The body [5]. *)
Definition number_body_services : CustomSqlApi.Services nat :=
  services (Returns (PInt 5)) [warehouse] 0 [stored_result].

(** A queue that loses the job: the first refresh works, the second raises. *)
Definition lost_job_services : CustomSqlApi.Services nat :=
  {| CustomSqlApi.request_get_json := Returns body_ok;
     CustomSqlApi.DataSource_first _ := Returns (Some warehouse);
     CustomSqlApi.enqueue_query _ _ := Returns 0%nat;
     CustomSqlApi.job_result _ := PNone;
     CustomSqlApi.job_refresh j :=
       if (j <? 1)%nat then Returns (S j)
       else Raises (Exn (OtherError "NoSuchJobError") "No such job");
     CustomSqlApi.serialize_job _ := Returns (PDict [("job", PDict [])]);
     CustomSqlApi.QueryResult_get _ := Returns None |}.

(** The deployment [s] with a serializer that fails with [e] on every job. *)
Definition unloggable (e : exn) (s : CustomSqlApi.Services nat) : CustomSqlApi.Services nat :=
  {| CustomSqlApi.request_get_json := @CustomSqlApi.request_get_json nat s;
     CustomSqlApi.DataSource_first := @CustomSqlApi.DataSource_first nat s;
     CustomSqlApi.enqueue_query := @CustomSqlApi.enqueue_query nat s;
     CustomSqlApi.job_result := @CustomSqlApi.job_result nat s;
     CustomSqlApi.job_refresh := @CustomSqlApi.job_refresh nat s;
     CustomSqlApi.serialize_job _ := Raises e;
     CustomSqlApi.QueryResult_get := @CustomSqlApi.QueryResult_get nat s |}.

(** The serializer has no entry for the status of the job. *)
Definition unknown_status : exn := Exn KeyError "'deferred'".

(** The job never shows a result within the budget, and does not serialize. *)
Definition unloggable_stuck_services : CustomSqlApi.Services nat :=
  unloggable unknown_status stuck_services.

(** The job shows its result at the second refresh, and does not serialize. *)
Definition unloggable_prompt_services : CustomSqlApi.Services nat :=
  unloggable unknown_status prompt_services.

(** The stored result has no ["rows"], and serializing the job fails with
    a [ProgrammingError]. *)
Definition unloggable_rowless_services : CustomSqlApi.Services nat :=
  unloggable (Exn ProgrammingError "syntax error at or near") rowless_services.

End Samples.

(** * Properties *)

(** ** The registry *)

Section Registry.
Import StorageRunner.
Implicit Types (c A B : runner_class) (storage_runners : gmap string runner_class).

Lemma register_storage_enabled c storage_runners :
  enabled c = true ->
  register_storage c storage_runners = <[type c := c]> storage_runners.
Proof. intros Hc. unfold register_storage. by rewrite Hc. Qed.

Lemma register_storage_disabled c storage_runners :
  enabled c = false -> register_storage c storage_runners = storage_runners.
Proof. intros Hc. unfold register_storage. by rewrite Hc. Qed.

(** C9.  When two enabled classes [A] and [B] report the same type string,
    registering [A] and then [B] leaves the lookup of that string at [B],
    whatever the registry held before; no trace of [A]'s registration is
    left: the registry is the one obtained by registering [B] alone. *)
Theorem register_storage_last_wins A B storage_runners :
  enabled A = true -> enabled B = true -> type A = type B ->
  register_storage B (register_storage A storage_runners) !! type A = Some B /\
  register_storage B (register_storage A storage_runners)
    = register_storage B storage_runners.
Proof.
  intros HA HB Hty.
  rewrite !register_storage_enabled by done.
  rewrite Hty. split.
  - apply lookup_insert_eq.
  - apply insert_insert_eq.
Qed.

Lemma register_storage_last_wins_witness :
  register_storage Samples.OtherMinioRunner_class
    (register_storage (Minio.MinioRunner_class true) ∅) !! "minio"
  = Some Samples.OtherMinioRunner_class.
Proof.
  exact (proj1 (register_storage_last_wins (Minio.MinioRunner_class true)
                  Samples.OtherMinioRunner_class ∅ eq_refl eq_refl eq_refl)).
Defined.

(** C10.  [register_storage] keeps the registry keyed by type: if every key
    maps to a class whose [type()] is that key, the same holds afterwards.
    When the class reports [enabled()] false the registry is unchanged, so
    what was registered under its type string is still there. *)
Theorem register_storage_keeps_invariant c storage_runners :
  keyed_by_type storage_runners ->
  keyed_by_type (register_storage c storage_runners) /\
  (enabled c = false ->
     register_storage c storage_runners = storage_runners /\
     register_storage c storage_runners !! type c = storage_runners !! type c).
Proof.
  intros Hinv. split.
  - unfold register_storage. destruct (enabled c); [|done].
    intros k c' Hk. destruct (decide (type c = k)) as [<-|Hne].
    + rewrite lookup_insert_eq in Hk. by inversion Hk.
    + rewrite lookup_insert_ne in Hk by done. by apply Hinv.
  - intros Hc. by rewrite register_storage_disabled.
Qed.

Lemma keyed_by_type_empty : keyed_by_type ∅.
Proof. intros k c Hk. by rewrite lookup_empty in Hk. Qed.

Lemma register_storage_keeps_invariant_witness :
  keyed_by_type (register_storage (Minio.MinioRunner_class true) ∅) /\
  register_storage Samples.DisabledRunner_class
    (register_storage (Minio.MinioRunner_class true) ∅) !! "minio"
  = Some (Minio.MinioRunner_class true).
Proof.
  pose proof (register_storage_keeps_invariant (Minio.MinioRunner_class true) ∅
                keyed_by_type_empty) as [Hreg _].
  split; [exact Hreg|].
  pose proof (register_storage_keeps_invariant Samples.DisabledRunner_class _ Hreg)
    as [_ Hoff].
  destruct (Hoff eq_refl) as [_ Hsame].
  etrans; [exact Hsame|reflexivity].
Defined.

End Registry.

(** ** Strings and the error monad *)

Lemma prefix_app (m post : string) : String.prefix m (m +:+ post) = true.
Proof.
  induction m as [|c m IH]; simpl.
  - by destruct post.
  - destruct (ascii_dec c c); [exact IH|done].
Qed.

Lemma prefix_inv (m s : string) :
  String.prefix m s = true -> exists post : string, s = m +:+ post.
Proof.
  revert s. induction m as [|c m IH]; intros s Hp.
  - by exists s.
  - destruct s as [|c' s]; simpl in Hp; [done|].
    destruct (ascii_dec c c') as [->|]; [|done].
    destruct (IH s Hp) as [post ->]. by exists post.
Qed.

Lemma str_contains_prefix (m s : string) :
  String.prefix m s = true -> str_contains m s = true.
Proof. intros Hp. destruct s; cbn [str_contains]; by rewrite Hp. Qed.

(** Python's [m in s] on strings decides [occurs_in]. *)
Lemma str_contains_occurs (m s : string) :
  str_contains m s = true <-> occurs_in m s.
Proof.
  split.
  - induction s as [|c s IH]; cbn [str_contains]; intros Hc.
    + apply orb_prop in Hc as [Hp|]; [|done].
      destruct (prefix_inv _ _ Hp) as [post ->]. by exists "", post.
    + apply orb_prop in Hc as [Hp|Hc].
      * destruct (prefix_inv _ _ Hp) as [post ->]. by exists "", post.
      * destruct (IH Hc) as (pre & post & ->). by exists (String c pre), post.
  - intros (pre & post & ->).
    induction pre as [|c pre IH].
    + change ("" +:+ m +:+ post) with (m +:+ post).
      apply str_contains_prefix, prefix_app.
    + change (String c pre +:+ m +:+ post) with (String c (pre +:+ m +:+ post)).
      cbn [str_contains]. by rewrite IH, orb_true_r.
Qed.

Lemma append_empty_r (s : string) : s +:+ "" = s.
Proof.
  induction s as [|c s IH]; [done|].
  change (String c s +:+ "") with (String c (s +:+ "")). by rewrite IH.
Qed.

Lemma append_assoc (x y z : string) : (x +:+ y) +:+ z = x +:+ y +:+ z.
Proof.
  induction x as [|c x IH]; [done|].
  change ((String c x +:+ y) +:+ z) with (String c ((x +:+ y) +:+ z)).
  change (String c x +:+ y +:+ z) with (String c (x +:+ y +:+ z)).
  by rewrite IH.
Qed.

Lemma occurs_in_suffix (pre m : string) : occurs_in m (pre +:+ m).
Proof. exists pre, "". by rewrite append_empty_r. Qed.

Lemma occurs_in_trans (a b c : string) : occurs_in a b -> occurs_in b c -> occurs_in a c.
Proof.
  intros (p1 & q1 & ->) (p2 & q2 & ->).
  exists (p2 +:+ p1), (q1 +:+ q2).
  by rewrite !append_assoc.
Qed.

Lemma bind_Returns {A B : Type} (a : A) (k : A -> result B) :
  Returns a ≫= k = k a.
Proof. reflexivity. Qed.

Lemma bind_Raises {A B : Type} (e : exn) (k : A -> result B) :
  Raises e ≫= k = Raises e.
Proof. reflexivity. Qed.

(** ** The MinIO runner and the base class *)

Section StorageRunners.
Context `{Builtins}.
Implicit Types (self : Minio.MinioRunner) (bucket target : value).

(** The bucket configured as the default. *)
Abbreviation default_bucket self :=
  (dict_get (Minio.configuration self) "bucket" PNone).


Lemma py_or_falsy (a b : value) : truthy a = false -> py_or a b = b.
Proof. unfold py_or. by intros ->. Qed.

Lemma py_or_same (a : value) : py_or a a = a.
Proof. unfold py_or. by destruct (truthy a). Qed.

(** [list_objects] lists the bucket that [or] settles on. *)
Lemma list_objects_resolved self target :
  Minio.list_objects self target
  = Minio.list_bucket self (py_or target (default_bucket self)).
Proof. reflexivity. Qed.

(** C6.  Called with no target, [list_objects] gives what it gives when the
    configured default bucket is passed explicitly, for every runner and
    every behaviour of the client. *)
Theorem list_objects_default_target self :
  Minio.list_objects self PNone = Minio.list_objects self (default_bucket self).
Proof.
  rewrite !list_objects_resolved.
  by rewrite py_or_falsy, py_or_same.
Qed.

(** The listing succeeds exactly when the client's call does. *)
Lemma list_bucket_returns self bucket (objects : list Minio.MinioObject) :
  Minio.client_list_objects (Minio.client self) bucket = Returns objects ->
  Minio.list_bucket self bucket = Returns (map listed objects).
Proof. intros Hc. unfold Minio.list_bucket. by rewrite Hc. Qed.

Lemma list_bucket_raises self bucket (e : exn) :
  Minio.client_list_objects (Minio.client self) bucket = Raises e ->
  Minio.list_bucket self bucket
  = Raises (Exn Exception
      ("Failed to list objects from bucket " +:+ py_str bucket +:+ ": " +:+ exn_msg e)).
Proof. intros Hc. unfold Minio.list_bucket. by rewrite Hc. Qed.

(** [BaseStorageRunner.test_connection], for any runner class. *)
Lemma base_test_connection_spec {R : Type} `{StorageRunner.BaseStorageRunner R} (r : R) :
  (StorageRunner.test_connection r = Returns true <->
     raised (StorageRunner.list_objects r PNone) = false) /\
  (forall e : exn, StorageRunner.list_objects r PNone = Raises e ->
     exists msg : string,
       StorageRunner.test_connection r = Raises (Exn Exception msg) /\
       occurs_in (exn_msg e) msg).
Proof.
  unfold StorageRunner.test_connection.
  destruct (StorageRunner.list_objects r PNone) as [objects|e0]; simpl; split.
  - done.
  - intros e He. discriminate He.
  - split; intros Hd; discriminate Hd.
  - intros e [= <-]. eexists. split; [reflexivity|]. apply occurs_in_suffix.
Qed.

(** C8.  [test_connection] returns [True] exactly when [list_objects()]
    does not raise; when [list_objects()] raises with message [m] it raises
    one [Exception] whose message contains [m], and so contains the message
    of the client's own failure.  This holds for [MinioRunner]'s override
    and for the method inherited from [BaseStorageRunner]. *)
Theorem test_connection_iff_listing self :
  ((Minio.test_connection self = Returns true <->
      raised (Minio.list_objects self PNone) = false) /\
   (forall e : exn, Minio.list_objects self PNone = Raises e ->
      exists msg : string,
        Minio.test_connection self = Raises (Exn Exception msg) /\
        occurs_in (exn_msg e) msg) /\
   (forall cause : exn,
      Minio.client_list_objects (Minio.client self) (default_bucket self)
        = Raises cause ->
      exists msg : string,
        Minio.test_connection self = Raises (Exn Exception msg) /\
        occurs_in (exn_msg cause) msg)) /\
  (forall (R : Type) (base : StorageRunner.BaseStorageRunner R) (r : R),
     (StorageRunner.test_connection r = Returns true <->
        raised (StorageRunner.list_objects r PNone) = false) /\
     (forall e : exn, StorageRunner.list_objects r PNone = Raises e ->
        exists msg : string,
          StorageRunner.test_connection r = Raises (Exn Exception msg) /\
          occurs_in (exn_msg e) msg)).
Proof.
  split; [|intros R base r; apply base_test_connection_spec].
  assert (Hraise : forall e : exn, Minio.list_objects self PNone = Raises e ->
            Minio.test_connection self
            = Raises (Exn Exception ("MinIO connection test failed: " +:+ exn_msg e))).
  { intros e He. unfold Minio.test_connection. by rewrite He. }
  split; [|split].
  - unfold Minio.test_connection.
    destruct (Minio.list_objects self PNone) as [objects|e0]; simpl; [done|].
    split; intros Hd; discriminate Hd.
  - intros e He. eexists. split; [by apply Hraise|]. apply occurs_in_suffix.
  - intros cause Hc.
    assert (He := list_bucket_raises self _ _ Hc).
    rewrite <- (py_or_falsy PNone (default_bucket self)) in He at 1 by done.
    rewrite <- list_objects_resolved in He.
    eexists. split; [by apply Hraise|].
    eapply occurs_in_trans; [|apply occurs_in_suffix].
    simpl. rewrite <- !append_assoc. apply occurs_in_suffix.
Qed.

(** Once the command decodes to a dictionary, [run_query] tabulates the
    listing of the bucket the command names, or of the default one. *)
Lemma run_query_decoded self (query : string) (user : value) (d : dict) :
  json_loads query = Returns (PDict d) ->
  Minio.run_query self query user
  = Minio.tabulate (Minio.list_objects self (dict_get d "bucket" (default_bucket self))).
Proof. intros Hq. unfold Minio.run_query, Minio.tabulate. by rewrite Hq. Qed.


Lemma row_of_listed (obj : Minio.MinioObject) :
  Minio.row_of (listed obj) = Returns (row obj).
Proof. reflexivity. Qed.

Lemma mapM_row_of_listed (objects : list Minio.MinioObject) :
  mapM Minio.row_of (map listed objects) = Returns (map row objects).
Proof.
  induction objects as [|obj objects IH]; [done|].
  cbn [map mapM]. by rewrite row_of_listed, bind_Returns, IH.
Qed.

Lemma declared_names_columns :
  declared_names Minio.columns = ["object_name"; "last_modified"; "size"; "etag"].
Proof. reflexivity. Qed.

Lemma row_of_keys (obj r : value) :
  Minio.row_of obj = Returns r -> row_has_keys (declared_names Minio.columns) r.
Proof.
  unfold Minio.row_of.
  destruct (py_getitem obj "name") as [v1|]; [|done].
  destruct (py_getitem obj "last_modified") as [v2|]; [|done].
  destruct (py_getitem obj "size") as [v3|]; [|done].
  destruct (py_getitem obj "etag") as [v4|]; [|done].
  intros [= <-]. by eexists.
Qed.

Lemma mapM_row_of_keys (objects rows : list value) :
  mapM Minio.row_of objects = Returns rows ->
  Forall (row_has_keys (declared_names Minio.columns)) rows.
Proof.
  revert rows. induction objects as [|obj objects IH]; intros rows.
  - intros [= <-]. constructor.
  - cbn [mapM].
    destruct (Minio.row_of obj) as [r|] eqn:Hr; [|done].
    destruct (mapM Minio.row_of objects) as [rs|]; [|done].
    intros [= <-]. constructor; [by eapply row_of_keys|by apply IH].
Qed.

(** What [tabulate] can return: a table whose rows carry the declared keys,
    or [None] with an error string. *)
Lemma tabulate_cases (listing : result (list value)) :
  (exists rows : list value,
     Minio.tabulate listing
     = Returns (table rows, PNone) /\
     Forall (row_has_keys (declared_names Minio.columns)) rows) \/
  (exists msg : string, Minio.tabulate listing = Returns (PNone, PStr msg)).
Proof.
  unfold Minio.tabulate.
  destruct listing as [objects|e]; [|right; by eexists].
  rewrite bind_Returns.
  destruct (mapM Minio.row_of objects) as [rows|e] eqn:Hrows; [|right; by eexists].
  left. exists rows. split; [done|]. by eapply mapM_row_of_keys.
Qed.

Lemma run_query_cases self (query : string) (user : value) :
  (exists rows : list value,
     Minio.run_query self query user
     = Returns (table rows, PNone) /\
     Forall (row_has_keys (declared_names Minio.columns)) rows) \/
  (exists msg : string, Minio.run_query self query user = Returns (PNone, PStr msg)).
Proof.
  destruct (json_loads query) as [query_params|e] eqn:Hq.
  - destruct query_params as [| | | | | |d];
      try (right; unfold Minio.run_query; rewrite Hq; by eexists).
    rewrite (run_query_decoded _ _ _ _ Hq). apply tabulate_cases.
  - right. unfold Minio.run_query. rewrite Hq. by eexists.
Qed.

(** C7.  Every row of a table [run_query] returns has exactly the keys its
    [columns] declare, [object_name], [last_modified], [size] and [etag], in
    that order; and a table is what it returns, with one row per object,
    whenever the command decodes to a dictionary and the client returns a
    list of objects (empty or not) for the bucket settled on. *)
Theorem run_query_rows_match_columns self (query : string) (user : value) :
  (forall data : value,
     Minio.run_query self query user = Returns (data, PNone) ->
     exists rows : list value,
       data = table rows /\
       Forall (row_has_keys (declared_names Minio.columns)) rows) /\
  (forall (d : dict) (objects : list Minio.MinioObject),
     json_loads query = Returns (PDict d) ->
     Minio.client_list_objects (Minio.client self)
       (py_or (dict_get d "bucket" (default_bucket self)) (default_bucket self))
       = Returns objects ->
     Minio.run_query self query user = Returns (table (map row objects), PNone) /\
     Forall (row_has_keys (declared_names Minio.columns)) (map row objects)) /\
  declared_names Minio.columns = ["object_name"; "last_modified"; "size"; "etag"].
Proof.
  split; [|split; [|reflexivity]].
  - intros data Hrun.
    destruct (run_query_cases self query user) as [(rows & Hr & Hkeys)|(msg & Hr)];
      rewrite Hr in Hrun; [|discriminate Hrun].
    injection Hrun as <-. by exists rows.
  - intros d objects Hq Hc.
    assert (Hrun : Minio.run_query self query user
                   = Returns (table (map row objects), PNone)).
    { rewrite (run_query_decoded _ _ _ _ Hq), list_objects_resolved.
      rewrite (list_bucket_returns _ _ _ Hc). unfold Minio.tabulate.
      by rewrite bind_Returns, mapM_row_of_listed. }
    split; [exact Hrun|].
    destruct (run_query_cases self query user) as [(rows & Hr & Hkeys)|(msg & Hr)];
      rewrite Hr in Hrun; [|discriminate Hrun].
    injection Hrun as ->. exact Hkeys.
Qed.



End StorageRunners.

(** ** The request handler *)

Section Handler.
Import CustomSqlApi.
Context {Job : Type} `{Services Job}.
Implicit Types (job : Job) (try_count : Z) (d : dict).

Lemma is_None_true (v : value) : is_None v = true <-> v = PNone.
Proof. destruct v; simpl; split; (done || discriminate). Qed.

Lemma is_None_false (v : value) : is_None v = false <-> v <> PNone.
Proof. destruct v; simpl; split; (done || (intros Hn; by destruct Hn) || discriminate). Qed.

Lemma PNone_cases (v : value) : v = PNone \/ v <> PNone.
Proof. destruct v; (by left) || (by right). Qed.

(** One turn of the [while] loop. *)
Lemma poll_unfold job try_count :
  poll job try_count
  = if is_None (job_result job) && (try_count <? 10)
    then _ ← traced (Sleep 1) (Returns ());
         job' ← traced Refresh (job_refresh job);
         poll job' (try_count + 1)
    else mret (job, try_count).
Proof.
  funelim (poll job try_count); rewrite Hcond; reflexivity.
Qed.

Lemma poll_stop job try_count :
  job_result job <> PNone \/ 10 <= try_count ->
  poll job try_count = ([], Returns (job, try_count)).
Proof.
  intros Hstop. rewrite poll_unfold.
  replace (is_None (job_result job) && (try_count <? 10)) with false; [done|].
  symmetry. apply andb_false_iff.
  destruct Hstop as [Hr|Htc]; [left; by apply is_None_false|right; lia].
Qed.

Lemma poll_refresh job job' try_count :
  job_result job = PNone -> try_count < 10 -> job_refresh job = Returns job' ->
  poll job try_count
  = (Sleep 1 :: Refresh :: fst (poll job' (try_count + 1)),
     snd (poll job' (try_count + 1))).
Proof.
  intros Hr Htc Hj. rewrite poll_unfold, Hr, Hj.
  replace (try_count <? 10) with true by (symmetry; lia).
  cbn. by destruct (poll job' (try_count + 1)) as [t r].
Qed.

Lemma poll_refresh_raises job (e : exn) try_count :
  job_result job = PNone -> try_count < 10 -> job_refresh job = Raises e ->
  poll job try_count = ([Sleep 1; Refresh], Raises e).
Proof.
  intros Hr Htc Hj. rewrite poll_unfold, Hr, Hj.
  by replace (try_count <? 10) with true by (symmetry; lia).
Qed.

Lemma rounds_S (k : nat) : rounds (S k) = Sleep 1 :: Refresh :: rounds k.
Proof. reflexivity. Qed.

(** The loop makes at most [10 - try_count] rounds, whatever the job does. *)
Lemma poll_trace (n : nat) job try_count :
  10 - try_count <= Z.of_nat n ->
  exists k : nat, (k <= n)%nat /\ fst (poll job try_count) = rounds k.
Proof.
  revert job try_count. induction n as [|n IH]; intros job try_count Hn.
  - exists O. split; [done|]. rewrite poll_stop; [done|right; lia].
  - destruct (PNone_cases (job_result job)) as [Hr|Hr];
      [|exists O; split; [lia|by rewrite poll_stop by auto]].
    destruct (decide (try_count < 10)) as [Htc|Htc];
      [|exists O; split; [lia|rewrite poll_stop; [done|right; lia]]].
    destruct (job_refresh job) as [job'|e] eqn:Hj.
    + destruct (IH job' (try_count + 1)) as (k & Hk & Ht); [lia|].
      exists (S k). split; [lia|].
      by rewrite (poll_refresh _ _ _ Hr Htc Hj), rounds_S, <- Ht.
    + exists 1%nat. split; [lia|]. by rewrite (poll_refresh_raises _ _ _ Hr Htc Hj).
Qed.

Lemma after_refreshes_S (n : nat) job job' :
  job_refresh job = Returns job' ->
  after_refreshes (S n) job = after_refreshes n job'.
Proof. intros Hj. cbn [after_refreshes]. by rewrite Hj. Qed.

(** A job still pending after its first refresh did refresh. *)
Lemma after_refreshes_S_inv (n : nat) job (job_n : Job) :
  after_refreshes (S n) job = Returns job_n ->
  exists job' : Job, job_refresh job = Returns job' /\ after_refreshes n job' = Returns job_n.
Proof.
  cbn [after_refreshes]. destruct (job_refresh job) as [job'|e]; [|done].
  intros Hn. by exists job'.
Qed.

(** The budget runs out: ten rounds, and the job as the tenth refresh left it. *)
Lemma poll_exhausted (n : nat) job try_count :
  Z.of_nat n = 10 - try_count ->
  pending_through n job ->
  exists job_n : Job,
    after_refreshes n job = Returns job_n /\
    job_result job_n = PNone /\
    poll job try_count = (rounds n, Returns (job_n, 10)).
Proof.
  revert job try_count. induction n as [|n IH]; intros job try_count Hn Hpending.
  - destruct (Hpending O) as (job0 & [= <-] & Hr); [done|].
    exists job. split; [done|]. split; [done|].
    rewrite poll_stop by (right; lia). do 2 f_equal. f_equal. lia.
  - destruct (Hpending O) as (job0 & [= <-] & Hr); [lia|].
    destruct (Hpending 1%nat) as (job1 & H1 & _); [lia|].
    apply after_refreshes_S_inv in H1 as (job' & Hj & _).
    destruct (IH job' (try_count + 1)) as (job_n & Hjn & Hrn & Hp); [lia| |].
    { intros i Hi. destruct (Hpending (S i)) as (job_i & Hji & Hri); [lia|].
      exists job_i. by rewrite <- (after_refreshes_S _ _ _ Hj). }
    exists job_n. split; [by rewrite (after_refreshes_S _ _ _ Hj)|]. split; [done|].
    assert (Htc : try_count < 10) by lia.
    rewrite (poll_refresh _ _ _ Hr Htc Hj), Hp. by rewrite rounds_S.
Qed.

(** The result shows after [k] refreshes, within the budget: [k] rounds. *)
Lemma poll_resolved (k : nat) job (job_k : Job) try_count :
  try_count + Z.of_nat k <= 10 ->
  after_refreshes k job = Returns job_k ->
  job_result job_k <> PNone ->
  (forall i : nat, (i < k)%nat ->
     exists job_i : Job, after_refreshes i job = Returns job_i /\ job_result job_i = PNone) ->
  poll job try_count = (rounds k, Returns (job_k, try_count + Z.of_nat k)).
Proof.
  revert job try_count. induction k as [|k IH]; intros job try_count Hk Hjk Hr Hpending.
  - injection Hjk as ->. rewrite poll_stop by auto. do 2 f_equal. f_equal. lia.
  - destruct (Hpending O) as (job0 & [= <-] & Hr0); [lia|].
    apply after_refreshes_S_inv in Hjk as (job' & Hj & Hjk).
    assert (Htc : try_count < 10) by lia.
    rewrite (poll_refresh _ _ _ Hr0 Htc Hj).
    rewrite (IH job' (try_count + 1)); [| lia | done | done |].
    + rewrite rounds_S. cbn [fst snd]. do 2 f_equal. f_equal. lia.
    + intros i Hi. destruct (Hpending (S i)) as (job_i & Hji & Hri); [lia|].
      exists job_i. by rewrite <- (after_refreshes_S _ _ _ Hj).
Qed.

(** The [except] clauses answer with the syntax error or the internal
    error only: never with a success, the timeout or the failed execution. *)
Lemma handle_exception_not_success (e : exn) (rows : value) :
  handle_exception e <> (PDict [("status", PStr "success"); ("result", rows)], 200).
Proof. unfold handle_exception. by destruct (exn_cls e). Qed.

Lemma handle_exception_not_late (e : exn) (key : error_key) (status : Z) :
  key = query_timeout \/ key = query_execution_failed ->
  handle_exception e <> error_response (error_messages key) status.
Proof. unfold handle_exception. intros [->| ->]; by destruct (exn_cls e). Qed.

(** A request that passes validation, names a known data source and is
    enqueued: the response is decided by how the wait loop ends, by the
    serialization of the job for the log line, and by the result store. *)
Lemma post_from_poll d (q n : value) (ds : DataSource) (job0 : Job) :
  request_get_json = Returns (PDict d) ->
  dict_lookup "query" d = Some q ->
  dict_lookup "db_name" d = Some n ->
  DataSource_first n = Returns (Some ds) ->
  enqueue_query q ds = Returns job0 ->
  post =
    (EnqueueQuery q ds :: fst (poll job0 0),
     match snd (poll job0 0) with
     | Returns (job, _) =>
         match serialize_job job with
         | Returns _ =>
             if is_None (job_result job)
             then error_response (error_messages query_timeout) 408
             else match QueryResult_get (job_result job) with
                  | Returns (Some query_result) =>
                      match py_getitem (data query_result) "rows" with
                      | Returns rows =>
                          (PDict [("status", PStr "success"); ("result", rows)], 200)
                      | Raises e => handle_exception e
                      end
                  | Returns None =>
                      error_response (error_messages query_execution_failed) 500
                  | Raises e => handle_exception e
                  end
         | Raises e => handle_exception e
         end
     | Raises e => handle_exception e
     end).
Proof.
  intros Hbody Hq Hn Hds Henq.
  assert (Ht : truthy (PDict d) = true) by (by destruct d).
  unfold post. rewrite Hbody. cbn -[truthy]. rewrite Ht. cbn.
  rewrite Hq. cbn. rewrite Hn. cbn.
  unfold dict_get. rewrite Hq, Hn, Hds. cbn. rewrite Henq. cbn.
  destruct (poll job0 0) as [t [[job try_count]|e]]; cbn; [|done].
  destruct (serialize_job job) as [logged|e]; cbn; [|by rewrite app_nil_r].
  destruct (is_None (job_result job)); cbn; [by rewrite app_nil_r|].
  destruct (QueryResult_get (job_result job)) as [[query_result|]|e]; cbn;
    [|by rewrite app_nil_r..].
  destruct (py_getitem (data query_result) "rows") as [rows|e]; cbn;
    by rewrite app_nil_r.
Qed.

(** C1, as amended.  For a request that passes validation, whose data
    source resolves and whose query is enqueued: the handler sleeps one
    second before each refresh of the job and refreshes it at most ten
    times, whatever happens afterwards.  When the job still shows no result
    reference after the tenth refresh, ten rounds are made and, if the job
    serializes for the log line, the response is 408 "Query execution
    timeout.".  When a result reference shows after [k <= 10] refreshes,
    exactly [k] rounds are made and, if the job serializes for the log
    line, the response is 200 with ["result"] the rows of the stored result
    when it is found, 500 "Query execution failed." when there is no stored
    result under that reference.  In both cases, when the serialization
    raises, the rounds are the same and the response is the one of the
    [except] clauses for that exception: neither 408 nor 200 nor "Query
    execution failed.". *)
Theorem post_polls_at_most_ten_times d (q n : value) (ds : DataSource) (job0 : Job) :
  request_get_json = Returns (PDict d) ->
  dict_lookup "query" d = Some q ->
  dict_lookup "db_name" d = Some n ->
  DataSource_first n = Returns (Some ds) ->
  enqueue_query q ds = Returns job0 ->
  (exists k : nat, (k <= 10)%nat /\ fst post = EnqueueQuery q ds :: rounds k) /\
  (pending_through 10 job0 ->
     exists job_10 : Job,
       after_refreshes 10 job0 = Returns job_10 /\
       fst post = EnqueueQuery q ds :: rounds 10 /\
       (forall logged : value,
          serialize_job job_10 = Returns logged ->
          snd post = error_response (error_messages query_timeout) 408) /\
       (forall e : exn,
          serialize_job job_10 = Raises e ->
          snd post = handle_exception e /\
          snd post <> error_response (error_messages query_timeout) 408)) /\
  (forall (k : nat) (job_k : Job),
     (k <= 10)%nat ->
     after_refreshes k job0 = Returns job_k ->
     job_result job_k <> PNone ->
     (forall i : nat, (i < k)%nat ->
        exists job_i : Job,
          after_refreshes i job0 = Returns job_i /\ job_result job_i = PNone) ->
     fst post = EnqueueQuery q ds :: rounds k /\
     (forall logged : value,
        serialize_job job_k = Returns logged ->
        (forall (query_result : QueryResult) (rows : value),
           QueryResult_get (job_result job_k) = Returns (Some query_result) ->
           py_getitem (data query_result) "rows" = Returns rows ->
           snd post = (PDict [("status", PStr "success"); ("result", rows)], 200)) /\
        (QueryResult_get (job_result job_k) = Returns None ->
           snd post = error_response (error_messages query_execution_failed) 500)) /\
     (forall e : exn,
        serialize_job job_k = Raises e ->
        snd post = handle_exception e /\
        (forall rows : value,
           snd post <> (PDict [("status", PStr "success"); ("result", rows)], 200)) /\
        snd post <> error_response (error_messages query_execution_failed) 500)).
Proof.
  intros Hbody Hq Hn Hds Henq.
  rewrite (post_from_poll _ _ _ _ _ Hbody Hq Hn Hds Henq). cbn [fst snd].
  split; [|split].
  - destruct (poll_trace 10 job0 0) as (k & Hk & Ht); [lia|].
    exists k. by rewrite Ht.
  - intros Hpending.
    destruct (poll_exhausted 10 job0 0) as (job_n & Hjn & Hr & Hp); [lia|done|].
    exists job_n. rewrite Hp. cbn [fst snd]. split; [done|]. split; [done|]. split.
    + intros logged ->. by rewrite Hr.
    + intros e ->. split; [done|]. apply handle_exception_not_late. by left.
  - intros k job_k Hk Hjk Hr Hpending.
    rewrite (poll_resolved k job0 job_k 0) by (lia || done). cbn [fst snd].
    apply is_None_false in Hr as Hnone.
    split; [done|]. split.
    + intros logged ->. rewrite Hnone. split.
      * intros query_result rows Hget Hrows. by rewrite Hget, Hrows.
      * intros Hget. by rewrite Hget.
    + intros e ->. split; [done|]. split.
      * intros rows. apply handle_exception_not_success.
      * apply handle_exception_not_late. by right.
Qed.

(** C3, as amended.  A body that is empty (or otherwise false: no JSON,
    [null], [{}]) gets the "missing both fields" message; a non-empty
    object without ['query'] gets the "missing query" message, whether or
    not ['db_name'] is there; an object with ['query'] and without
    ['db_name'] gets the "missing db_name" message.  Each is a 400 and
    nothing is enqueued. *)
Theorem post_missing_field_messages (body : value) :
  request_get_json = Returns body ->
  (truthy body = false ->
     post = ([], error_response (error_messages missing_fields) 400)) /\
  (forall d, body = PDict d -> d <> [] -> dict_lookup "query" d = None ->
     post = ([], error_response (error_messages missing_query) 400)) /\
  (forall d (q : value), body = PDict d ->
     dict_lookup "query" d = Some q -> dict_lookup "db_name" d = None ->
     post = ([], error_response (error_messages missing_db_name) 400)).
Proof.
  intros Hbody. unfold post. rewrite Hbody. split; [|split].
  - intros Hf. cbn -[truthy]. by rewrite Hf.
  - intros d -> Hd Hq. destruct d as [|item d]; [done|].
    cbn -[dict_lookup]. by rewrite Hq.
  - intros d q -> Hq Hn. destruct d as [|item d]; [done|].
    cbn -[dict_lookup]. rewrite Hq. cbn -[dict_lookup]. by rewrite Hn.
Qed.

(** C4, as amended.  A request whose ['db_name'] matches no data source
    fails at resolution with 404 "Database name not found." and nothing is
    enqueued.  (The handler does not look at the registry of runners: a data
    source of an unregistered type resolves and its query is enqueued.) *)
Theorem post_unknown_database d (q n : value) :
  request_get_json = Returns (PDict d) ->
  dict_lookup "query" d = Some q ->
  dict_lookup "db_name" d = Some n ->
  DataSource_first n = Returns None ->
  post = ([], error_response (error_messages database_not_found) 404) /\
  never_enqueues (fst post).
Proof.
  intros Hbody Hq Hn Hds.
  assert (Hpost : post = ([], error_response (error_messages database_not_found) 404)).
  { assert (Ht : truthy (PDict d) = true) by (by destruct d).
    unfold post. rewrite Hbody. cbn -[truthy]. rewrite Ht. cbn.
    rewrite Hq. cbn. rewrite Hn. cbn.
    unfold dict_get. by rewrite Hn, Hds. }
  split; [exact Hpost|]. by rewrite Hpost.
Qed.

End Handler.

(** ** The properties on the sample data *)

Section OnSamples.
Import Samples CustomSqlApi.



Lemma test_connection_iff_listing_witness :
  exists msg : string,
    Minio.test_connection unreachable_runner = Raises (Exn Exception msg) /\
    occurs_in "Failed to connect" msg.
Proof.
  destruct (test_connection_iff_listing unreachable_runner) as [(_ & _ & Hcause) _].
  exact (Hcause (Exn Exception "Failed to connect") eq_refl).
Defined.

Lemma run_query_rows_match_columns_witness :
  Minio.run_query runner query_test PNone = Returns (table [row file1], PNone) /\
  Forall (row_has_keys ["object_name"; "last_modified"; "size"; "etag"]) [row file1].
Proof.
  destruct (run_query_rows_match_columns runner query_test PNone) as (_ & Hrun & _).
  exact (Hrun [("bucket", PStr "test")] [file1] eq_refl eq_refl).
Defined.


Lemma sample_after_refreshes body sources ready_after results (i j : nat) :
  @after_refreshes nat (services body sources ready_after results) i j
  = Returns (i + j)%nat.
Proof.
  revert j. induction i as [|i IH]; intros j; [done|].
  cbn [after_refreshes]. cbn. rewrite IH. f_equal. lia.
Qed.

(** C1 as stated fails: the request is valid, its data source resolves and
    its query is enqueued, but the serializer has no entry for the status of
    the job and raises [KeyError] when the log line is built.  With a job
    that shows no result reference through the tenth refresh the response
    is 500 with the internal error, not 408 "Query execution timeout."; with
    a job that shows the reference [42] at its second refresh and a stored
    result found under it, the response is the same 500, not 200 with the
    rows. *)
Lemma post_log_line_failure_hides_outcome :
  @request_get_json nat unloggable_stuck_services = Returns body_ok /\
  @DataSource_first nat unloggable_stuck_services (PStr "warehouse")
    = Returns (Some warehouse) /\
  @enqueue_query nat unloggable_stuck_services (PStr "select 1") warehouse
    = Returns 0%nat /\
  @pending_through nat unloggable_stuck_services 10 0%nat /\
  @post nat unloggable_stuck_services
    = (EnqueueQuery (PStr "select 1") warehouse :: rounds 10,
       error_response (error_messages internal_server_error) 500) /\
  snd (@post nat unloggable_stuck_services)
    <> error_response (error_messages query_timeout) 408 /\
  @after_refreshes nat unloggable_prompt_services 2 0%nat = Returns 2%nat /\
  @job_result nat unloggable_prompt_services 2%nat = PInt 42 /\
  @QueryResult_get nat unloggable_prompt_services (PInt 42) = Returns (Some stored_result) /\
  py_getitem (data stored_result) "rows" = Returns stored_rows /\
  @post nat unloggable_prompt_services
    = (EnqueueQuery (PStr "select 1") warehouse :: rounds 2,
       error_response (error_messages internal_server_error) 500) /\
  snd (@post nat unloggable_prompt_services)
    <> (PDict [("status", PStr "success"); ("result", stored_rows)], 200).
Proof.
  split; [reflexivity|]. split; [reflexivity|]. split; [reflexivity|].
  split.
  { intros i Hi. exists i.
    do 11 (destruct i as [|i]; [split; reflexivity|]). lia. }
  split; [vm_compute; reflexivity|]. split; [vm_compute; discriminate|].
  split; [reflexivity|]. split; [reflexivity|]. split; [reflexivity|].
  split; [reflexivity|]. split; [vm_compute; reflexivity|vm_compute; discriminate].
Qed.

Lemma post_polls_at_most_ten_times_witness :
  @post nat prompt_services
  = (EnqueueQuery (PStr "select 1") warehouse :: rounds 2,
     (PDict [("status", PStr "success"); ("result", stored_rows)], 200)) /\
  @post nat stuck_services
  = (EnqueueQuery (PStr "select 1") warehouse :: rounds 10,
     error_response (error_messages query_timeout) 408) /\
  @post nat unloggable_stuck_services
  = (EnqueueQuery (PStr "select 1") warehouse :: rounds 10,
     handle_exception unknown_status).
Proof.
  split; [|split].
  - destruct (@post_polls_at_most_ten_times nat prompt_services
                _ (PStr "select 1") (PStr "warehouse") warehouse 0%nat
                eq_refl eq_refl eq_refl eq_refl eq_refl) as (_ & _ & Hresolved).
    destruct (Hresolved 2%nat 2%nat) as (Htrace & Hlogged & _).
    + lia.
    + reflexivity.
    + discriminate.
    + intros i Hi. exists i. split.
      * etrans; [exact (sample_after_refreshes _ _ 2%nat _ i 0)|f_equal; lia].
      * by destruct i as [|[|i]]; [..|lia].
    + destruct (Hlogged _ eq_refl) as [Hfound _].
      rewrite (surjective_pairing (@post nat prompt_services)).
      by rewrite Htrace, (Hfound stored_result stored_rows eq_refl eq_refl).
  - destruct (@post_polls_at_most_ten_times nat stuck_services
                _ (PStr "select 1") (PStr "warehouse") warehouse 0%nat
                eq_refl eq_refl eq_refl eq_refl eq_refl) as (_ & Htimeout & _).
    destruct Htimeout as (job_10 & Hj10 & Htrace & Hlogged & _).
    + intros i Hi. exists i.
      split; [etrans; [exact (sample_after_refreshes _ _ 11%nat _ i 0)|f_equal; lia]|].
      change (job_result i) with (if (i <? 11)%nat then PNone else PInt 42).
      by replace (i <? 11)%nat with true by (symmetry; apply Nat.ltb_lt; lia).
    + rewrite (surjective_pairing (@post nat stuck_services)).
      by rewrite Htrace, (Hlogged _ eq_refl).
  - destruct (@post_polls_at_most_ten_times nat unloggable_stuck_services
                _ (PStr "select 1") (PStr "warehouse") warehouse 0%nat
                eq_refl eq_refl eq_refl eq_refl eq_refl) as (_ & Htimeout & _).
    destruct Htimeout as (job_10 & Hj10 & Htrace & _ & Hraised).
    + intros i Hi. exists i.
      do 11 (destruct i as [|i]; [split; reflexivity|]). lia.
    + destruct (Hraised unknown_status eq_refl) as [Hresponse _].
      rewrite (surjective_pairing (@post nat unloggable_stuck_services)).
      by rewrite Htrace, Hresponse.
Defined.

(** C3 as stated fails: the body [{"foo": 1}] has neither field, and the
    response carries the "missing query" message, not the "missing both
    fields" one. *)
Lemma post_missing_both_nonempty_body :
  @request_get_json nat foo_services = Returns (PDict [("foo", PInt 1)]) /\
  dict_lookup "query" [("foo", PInt 1)] = None /\
  dict_lookup "db_name" [("foo", PInt 1)] = None /\
  @post nat foo_services = ([], error_response (error_messages missing_query) 400) /\
  snd (@post nat foo_services) <> error_response (error_messages missing_fields) 400.
Proof.
  repeat split; try reflexivity. vm_compute. discriminate.
Qed.

Lemma post_missing_field_messages_witness :
  @post nat query_only_services
  = ([], error_response (error_messages missing_db_name) 400).
Proof.
  destruct (@post_missing_field_messages nat query_only_services
              (PDict [("query", PStr "x")]) eq_refl) as (_ & _ & Hdb).
  exact (Hdb [("query", PStr "x")] (PStr "x") eq_refl eq_refl eq_refl).
Defined.

(** C4 as stated fails: the data source ["warehouse"] has type ["pg"], for
    which no runner is registered, and the request is not refused with 404:
    its query is enqueued. *)
Lemma post_enqueues_unregistered_type :
  storage_runners !! ds_type warehouse = None /\
  @DataSource_first nat lost_result_services (PStr "warehouse") = Returns (Some warehouse) /\
  fst (@post nat lost_result_services) = [EnqueueQuery (PStr "select 1") warehouse] /\
  ~ never_enqueues (fst (@post nat lost_result_services)) /\
  snd (@post nat lost_result_services)
    <> error_response (error_messages database_not_found) 404.
Proof.
  split; [reflexivity|]. split; [reflexivity|]. split; [reflexivity|].
  split; vm_compute; discriminate.
Qed.

Lemma post_unknown_database_witness :
  @post nat unknown_db_services
    = ([], error_response (error_messages database_not_found) 404) /\
  never_enqueues (fst (@post nat unknown_db_services)).
Proof.
  exact (@post_unknown_database nat unknown_db_services
           _ (PStr "select 1") (PStr "warehouse") eq_refl eq_refl eq_refl eq_refl).
Defined.

End OnSamples.

(** * Further properties *)

(** ** The registry, continued *)

Section RegistryAlgebra.
Import StorageRunner.
Implicit Types (c : runner_class) (storage_runners : gmap string runner_class).

(** X1.  Registering a class twice is registering it once. *)
Theorem register_storage_idempotent c storage_runners :
  register_storage c (register_storage c storage_runners)
  = register_storage c storage_runners.
Proof.
  unfold register_storage. destruct (enabled c); [|done].
  apply insert_insert_eq.
Qed.

(** X2.  Registration never removes an entry and touches one key only: a
    type string other than the class's own is looked up as before, and a
    lookup succeeds afterwards exactly when it succeeded before or the key
    is the type of the enabled class just registered. *)
Theorem register_storage_frame c storage_runners (k : string) :
  (k <> type c ->
     register_storage c storage_runners !! k = storage_runners !! k) /\
  (is_Some (register_storage c storage_runners !! k) <->
     is_Some (storage_runners !! k) \/ (enabled c = true /\ k = type c)).
Proof.
  unfold register_storage. destruct (enabled c) eqn:Hc.
  - split.
    + intros Hk. by rewrite lookup_insert_ne.
    + destruct (decide (type c = k)) as [<-|Hk].
      * rewrite lookup_insert_eq. split; [auto|by eexists].
      * rewrite lookup_insert_ne by done.
        split; [auto|]. intros [Hs|[_ ->]]; [done|by destruct Hk].
  - split; [done|]. split; [auto|]. by intros [Hs|[Hf _]].
Qed.

Lemma register_storage_frame_witness :
  register_storage Samples.OtherMinioRunner_class Samples.storage_runners !! "pg" = None.
Proof.
  destruct (register_storage_frame Samples.OtherMinioRunner_class
              Samples.storage_runners "pg") as [Hother _].
  etrans; [apply Hother; discriminate|reflexivity].
Defined.

(** X3.  Registrations of classes with different type strings commute. *)
Theorem register_storage_commutes (c1 c2 : runner_class) storage_runners :
  type c1 <> type c2 ->
  register_storage c1 (register_storage c2 storage_runners)
  = register_storage c2 (register_storage c1 storage_runners).
Proof.
  intros Hne. unfold register_storage.
  destruct (enabled c1), (enabled c2); try done.
  by apply insert_insert_ne.
Qed.

(** X4.  Importing [redash.storage_runner.minio]: with the client library
    present, ["minio"] resolves to [MinioRunner] whatever was registered
    before; with the library missing the registry is left as it was and no
    runner can be built, [__init__] raising [NameError] for every
    configuration.  Either way the registry stays keyed by type. *)
Theorem import_minio_module (Minio : Minio.library) storage_runners :
  (Minio.enabled Minio = true ->
     Minio.register_MinioRunner Minio storage_runners !! "minio"
     = Some (Minio.MinioRunner_class true)) /\
  (Minio.enabled Minio = false ->
     Minio.register_MinioRunner Minio storage_runners = storage_runners /\
     forall configuration : dict,
       exists msg : string,
         Minio.__init__ Minio configuration
         = Raises (Exn (OtherError "NameError") msg)) /\
  (keyed_by_type storage_runners ->
     keyed_by_type (Minio.register_MinioRunner Minio storage_runners)).
Proof.
  unfold Minio.register_MinioRunner. destruct Minio as [ctor|]; cbn [Minio.enabled].
  - split; [|split; [done|]].
    + intros _. apply lookup_insert_eq.
    + intros Hinv k c Hk. unfold register_storage in Hk. cbn in Hk.
      destruct (decide ("minio" = k)) as [<-|Hne].
      * rewrite lookup_insert_eq in Hk. by injection Hk as <-.
      * rewrite lookup_insert_ne in Hk by done. by apply Hinv.
  - split; [done|]. split; [|done].
    intros _. split; [done|]. intros configuration. by eexists.
Qed.

Lemma register_storage_commutes_witness :
  register_storage (Minio.MinioRunner_class true)
    (register_storage (RunnerClass "tests.S3Runner" true "S3" "s3") ∅)
  = register_storage (RunnerClass "tests.S3Runner" true "S3" "s3")
      (register_storage (Minio.MinioRunner_class true) ∅).
Proof.
  apply (register_storage_commutes (Minio.MinioRunner_class true)
           (RunnerClass "tests.S3Runner" true "S3" "s3") ∅).
  discriminate.
Defined.

Lemma import_minio_module_witness :
  Minio.register_MinioRunner Samples.mock_Minio ∅ !! "minio"
  = Some (Minio.MinioRunner_class true).
Proof.
  destruct (import_minio_module Samples.mock_Minio ∅) as [Hbound _].
  exact (Hbound eq_refl).
Defined.

End RegistryAlgebra.

(** ** Building a runner *)

Section Construction.
Context `{Builtins}.
Implicit Types (configuration : dict) (self : Minio.MinioRunner).

Lemma py_getitem_present configuration (key : string) (v : value) :
  dict_lookup key configuration = Some v ->
  py_getitem (PDict configuration) key = Returns v.
Proof. intros Hk. cbn [py_getitem]. by rewrite Hk. Qed.

Lemma py_getitem_absent configuration (key : string) :
  dict_lookup key configuration = None ->
  py_getitem (PDict configuration) key = Raises (Exn KeyError ("'" +:+ key +:+ "'")).
Proof. intros Hk. cbn [py_getitem]. by rewrite Hk. Qed.

(** X5.  A configuration holding every field the schema marks as required
    never makes [__init__] raise [KeyError]: the client library's
    constructor is called with the configured endpoint and keys, with
    [secure] defaulting to [False] and [region] to [None], and the runner
    built keeps the configuration unchanged; only the constructor's own
    exception can come out. *)
Theorem init_with_required_fields
    (Minio : value -> value -> value -> value -> value -> result Minio.MinioClient)
    configuration :
  Forall (fun key => is_Some (dict_lookup key configuration))
         (schema_list "required" StorageRunner.configuration_schema) ->
  exists endpoint access_key secret_key : value,
    dict_lookup "endpoint" configuration = Some endpoint /\
    dict_lookup "access_key" configuration = Some access_key /\
    dict_lookup "secret_key" configuration = Some secret_key /\
    Minio.__init__ (Some Minio) configuration
    = match Minio endpoint access_key secret_key
              (dict_get configuration "secure" (PBool false))
              (dict_get configuration "region" PNone) with
      | Returns client =>
          Returns {| Minio.configuration := configuration; Minio.client := client |}
      | Raises e => Raises e
      end.
Proof.
  intros Hreq.
  change (schema_list "required" StorageRunner.configuration_schema)
    with ["endpoint"; "access_key"; "secret_key"; "bucket"] in Hreq.
  apply Forall_cons in Hreq as [[endpoint He] Hreq].
  apply Forall_cons in Hreq as [[access_key Ha] Hreq].
  apply Forall_cons in Hreq as [[secret_key Hs] _].
  exists endpoint, access_key, secret_key. repeat (split; [done|]).
  unfold Minio.__init__.
  rewrite (py_getitem_present _ _ _ He), (py_getitem_present _ _ _ Ha),
    (py_getitem_present _ _ _ Hs).
  rewrite !bind_Returns. by destruct (Minio _ _ _ _ _).
Qed.

(** X6.  [__init__] fails on the first of [endpoint], [access_key] and
    [secret_key] that the configuration lacks, with a [KeyError] naming it,
    before the client library is called: the outcome is the same for every
    constructor. *)
Theorem init_missing_key
    (Minio : value -> value -> value -> value -> value -> result Minio.MinioClient)
    configuration :
  (dict_lookup "endpoint" configuration = None ->
     Minio.__init__ (Some Minio) configuration = Raises (Exn KeyError "'endpoint'")) /\
  (is_Some (dict_lookup "endpoint" configuration) ->
   dict_lookup "access_key" configuration = None ->
     Minio.__init__ (Some Minio) configuration = Raises (Exn KeyError "'access_key'")) /\
  (is_Some (dict_lookup "endpoint" configuration) ->
   is_Some (dict_lookup "access_key" configuration) ->
   dict_lookup "secret_key" configuration = None ->
     Minio.__init__ (Some Minio) configuration = Raises (Exn KeyError "'secret_key'")).
Proof.
  unfold Minio.__init__. split; [|split].
  - intros He. by rewrite (py_getitem_absent _ _ He).
  - intros [endpoint He] Ha.
    by rewrite (py_getitem_present _ _ _ He), (py_getitem_absent _ _ Ha).
  - intros [endpoint He] [access_key Ha] Hs.
    by rewrite (py_getitem_present _ _ _ He), (py_getitem_present _ _ _ Ha),
      (py_getitem_absent _ _ Hs).
Qed.


End Construction.

Section ConstructionOnSamples.
Import Samples.

Lemma init_with_required_fields_witness :
  Minio.__init__ mock_Minio config = Returns runner.
Proof.
  destruct (init_with_required_fields (fun _ _ _ _ _ => Returns mock_client) config)
    as (endpoint & access_key & secret_key & _ & _ & _ & Hinit).
  - repeat constructor; by eexists.
  - exact Hinit.
Defined.


End ConstructionOnSamples.


(** ** Listing, metadata and queries *)

Section RunnerOperations.
Context `{Builtins}.
Implicit Types (self : Minio.MinioRunner) (target bucket : value).

Abbreviation configured_bucket self :=
  (dict_get (Minio.configuration self) "bucket" PNone).

Lemma occurs_in_infix (pre m post : string) : occurs_in m (pre +:+ m +:+ post).
Proof. by exists pre, post. Qed.

(** X8.  [list_objects] returns one dictionary per object, in the client's
    order, holding the object's name, modification time, size and etag.  A
    failure of the client comes out as a plain [Exception], whatever its
    class was, whose message names the bucket asked for and ends with the
    client's message. *)
Theorem list_objects_contract self target :
  (forall objects : list Minio.MinioObject,
     Minio.client_list_objects (Minio.client self)
       (py_or target (configured_bucket self)) = Returns objects ->
     Minio.list_objects self target = Returns (map listed objects)) /\
  (forall cause : exn,
     Minio.client_list_objects (Minio.client self)
       (py_or target (configured_bucket self)) = Raises cause ->
     exists msg : string,
       Minio.list_objects self target = Raises (Exn Exception msg) /\
       occurs_in (py_str (py_or target (configured_bucket self))) msg /\
       exists pre : string, msg = pre +:+ exn_msg cause).
Proof.
  unfold Minio.list_objects, Minio.list_bucket. split.
  - intros objects Hc. by rewrite Hc.
  - intros cause Hc. rewrite Hc. eexists. split; [reflexivity|]. split.
    + apply occurs_in_infix.
    + eexists. by rewrite <- !append_assoc.
Qed.

(** X9.  [list_objects] consults the client about one bucket only: two
    runners with the same configuration whose clients agree on the bucket
    settled on give the same listing, however the clients differ
    elsewhere. *)
Theorem list_objects_one_bucket self (other : Minio.MinioRunner) target :
  Minio.configuration other = Minio.configuration self ->
  Minio.client_list_objects (Minio.client other) (py_or target (configured_bucket self))
  = Minio.client_list_objects (Minio.client self) (py_or target (configured_bucket self)) ->
  Minio.list_objects other target = Minio.list_objects self target.
Proof.
  intros Hcfg Hc. unfold Minio.list_objects, Minio.list_bucket.
  by rewrite Hcfg, Hc.
Qed.

(** X10.  [get_metadata] looks the object up in the configured bucket,
    never another one.  Found, it returns the object's name, size, etag,
    content type and modification time; a failure of the client comes out
    as a plain [Exception] whose message names the object and ends with the
    client's message. *)
Theorem get_metadata_contract self (object_name : value) :
  (forall obj : Minio.MinioObject,
     Minio.client_stat_object (Minio.client self) (configured_bucket self) object_name
       = Returns obj ->
     Minio.get_metadata self object_name
     = Returns (PDict [("name", Minio.object_name obj);
                       ("size", Minio.size obj);
                       ("etag", Minio.etag obj);
                       ("content_type", Minio.content_type obj);
                       ("last_modified", Minio.last_modified obj)])) /\
  (forall cause : exn,
     Minio.client_stat_object (Minio.client self) (configured_bucket self) object_name
       = Raises cause ->
     exists msg : string,
       Minio.get_metadata self object_name = Raises (Exn Exception msg) /\
       occurs_in (py_str object_name) msg /\
       exists pre : string, msg = pre +:+ exn_msg cause).
Proof.
  unfold Minio.get_metadata. split.
  - intros obj Hc. by rewrite Hc.
  - intros cause Hc. rewrite Hc. eexists. split; [reflexivity|]. split.
    + apply occurs_in_infix.
    + eexists. by rewrite <- !append_assoc.
Qed.

(** X11.  What [get_metadata] reports about an object agrees with its entry
    in a listing: under each key of the listing entry the metadata holds
    the same value. *)
Theorem metadata_extends_listing self (object_name : value)
    (obj : Minio.MinioObject) (metadata : value) (key : string) (v : value) :
  Minio.client_stat_object (Minio.client self) (configured_bucket self) object_name
    = Returns obj ->
  Minio.get_metadata self object_name = Returns metadata ->
  py_getitem (listed obj) key = Returns v ->
  py_getitem metadata key = Returns v.
Proof.
  intros Hc Hm. unfold Minio.get_metadata in Hm. rewrite Hc in Hm.
  injection Hm as <-. unfold listed. cbn [py_getitem dict_lookup].
  destruct (String.eqb "name" key) eqn:E1; [by intros [= <-]|].
  destruct (String.eqb "last_modified" key) eqn:E2.
  { apply String.eqb_eq in E2 as <-. by intros [= <-]. }
  destruct (String.eqb "size" key) eqn:E3.
  { apply String.eqb_eq in E3 as <-. by intros [= <-]. }
  destruct (String.eqb "etag" key) eqn:E4; [|done].
  apply String.eqb_eq in E4 as <-. by intros [= <-].
Qed.

End RunnerOperations.

Section RunnerQueries.
Context `{Builtins}.
Implicit Types (self : Minio.MinioRunner) (query : string) (user : value) (d : dict).

Abbreviation bucket_of self :=
  (dict_get (Minio.configuration self) "bucket" PNone).

Lemma py_get_non_object (v default : value) (key : string) :
  (forall d, v <> PDict d) ->
  py_get v key default
  = Raises (Exn AttributeError ("'" +:+ type_name v +:+ "' object has no attribute 'get'")).
Proof. intros Hv. destruct v; try done. by destruct (Hv d). Qed.

(** X12.  A command that is valid JSON but not an object (a list, a
    string, a number, [null]) is answered with the error string of the
    failed [.get], naming the type; the client is not consulted, so the
    answer is the same for every runner.  This holds for
    [MinioRunner.run_query] and for [BaseStorageRunner.run_query]. *)
Theorem run_query_non_object_command self query user (v : value) :
  json_loads query = Returns v ->
  (forall d, v <> PDict d) ->
  Minio.run_query self query user
    = Returns (PNone, PStr ("'" +:+ type_name v +:+ "' object has no attribute 'get'")) /\
  (forall (R : Type) (base : StorageRunner.BaseStorageRunner R) (r : R),
     StorageRunner.run_query r query user
     = Returns (PNone, PStr ("'" +:+ type_name v +:+ "' object has no attribute 'get'"))).
Proof.
  intros Hq Hv. split; [|intros R base r].
  - unfold Minio.run_query. rewrite Hq, bind_Returns.
    by rewrite (py_get_non_object _ _ _ Hv).
  - unfold StorageRunner.run_query. rewrite Hq, bind_Returns.
    by rewrite (py_get_non_object _ _ _ Hv).
Qed.

Lemma run_query_tabulates self query user d :
  json_loads query = Returns (PDict d) ->
  Minio.run_query self query user
  = Minio.tabulate
      (Minio.list_bucket self (py_or (dict_get d "bucket" (bucket_of self)) (bucket_of self))).
Proof. intros Hq. unfold Minio.run_query, Minio.tabulate. by rewrite Hq. Qed.


(** X14.  When the client fails, the error string [run_query] returns is
    the message of [list_objects]: it names the bucket asked for and ends
    with the client's message. *)
Theorem run_query_reports_cause self query user d (cause : exn) :
  json_loads query = Returns (PDict d) ->
  Minio.client_list_objects (Minio.client self)
    (py_or (dict_get d "bucket" (bucket_of self)) (bucket_of self)) = Raises cause ->
  Minio.run_query self query user
  = Returns (PNone,
             PStr ("Failed to list objects from bucket "
                   +:+ py_str (py_or (dict_get d "bucket" (bucket_of self)) (bucket_of self))
                   +:+ ": " +:+ exn_msg cause)).
Proof.
  intros Hq Hc. rewrite (run_query_tabulates _ _ _ _ Hq).
  unfold Minio.tabulate, Minio.list_bucket. by rewrite Hc.
Qed.

(** The columns [BaseStorageRunner.run_query] declares. *)
Lemma base_row_of_keys (obj r : value) :
  StorageRunner.row_of obj = Returns r ->
  row_has_keys ["object_name"; "last_modified"] r.
Proof.
  unfold StorageRunner.row_of.
  destruct (py_getitem obj "name") as [v1|]; [|done].
  destruct (py_getitem obj "last_modified") as [v2|]; [|done].
  intros [= <-]. by eexists.
Qed.

Lemma base_mapM_row_of_keys (objects rows : list value) :
  mapM StorageRunner.row_of objects = Returns rows ->
  Forall (row_has_keys ["object_name"; "last_modified"]) rows /\
  length rows = length objects.
Proof.
  revert rows. induction objects as [|obj objects IH]; intros rows.
  - intros [= <-]. by split; [constructor|].
  - cbn [mapM].
    destruct (StorageRunner.row_of obj) as [r|] eqn:Hr; [|done].
    destruct (mapM StorageRunner.row_of objects) as [rs|]; [|done].
    intros [= <-]. destruct (IH rs eq_refl) as [Hkeys Hlen].
    split; [constructor; [by eapply base_row_of_keys|done]|].
    cbn [length]. by rewrite Hlen.
Qed.

(** X15.  The table [BaseStorageRunner.run_query] returns, for any runner
    class: two declared columns, [object_name] and [last_modified], and
    rows that carry exactly those keys. *)
Theorem base_run_query_rows_match_columns {R : Type}
    `{StorageRunner.BaseStorageRunner R} (r : R) query user (data : value) :
  StorageRunner.run_query r query user = Returns (data, PNone) ->
  exists columns rows : list value,
    data = PDict [("columns", PList columns); ("rows", PList rows)] /\
    declared_names columns = ["object_name"; "last_modified"] /\
    Forall (row_has_keys (declared_names columns)) rows.
Proof.
  unfold StorageRunner.run_query.
  destruct (json_loads query) as [query_params|]; [|done].
  rewrite bind_Returns.
  destruct (py_get query_params _ _) as [bucket_name|]; [|done].
  rewrite bind_Returns.
  destruct (StorageRunner.list_objects r bucket_name) as [objects|]; [|done].
  rewrite bind_Returns.
  destruct (mapM StorageRunner.row_of objects) as [rows|] eqn:Hrows; [|done].
  intros [= <-]. eexists _, rows. split; [reflexivity|]. split; [reflexivity|].
  by apply base_mapM_row_of_keys in Hrows as [Hkeys _].
Qed.

Lemma base_row_of_missing_name (entry : dict) :
  dict_lookup "name" entry = None ->
  StorageRunner.row_of (PDict entry) = Raises (Exn KeyError "'name'").
Proof. intros Hn. unfold StorageRunner.row_of. cbn [py_getitem]. by rewrite Hn. Qed.

Lemma base_row_of_present (entry : dict) (n m : value) :
  dict_lookup "name" entry = Some n ->
  dict_lookup "last_modified" entry = Some m ->
  StorageRunner.row_of (PDict entry)
  = Returns (PDict [("object_name", n); ("last_modified", m)]).
Proof.
  intros Hn Hm. unfold StorageRunner.row_of. cbn [py_getitem]. by rewrite Hn, Hm.
Qed.

(** X16.  [BaseStorageRunner.run_query] relies on the runner's
    [list_objects] for the keys of its entries.  When the first entry
    listed is a dictionary without ["name"], the outcome is the error
    string ["'name'"], the text of the [KeyError]; when every entry has
    ["name"] and ["last_modified"] there is one row per entry. *)
Theorem base_run_query_missing_key {R : Type}
    `{StorageRunner.BaseStorageRunner R} (r : R) query user d (objects : list value) :
  json_loads query = Returns (PDict d) ->
  StorageRunner.list_objects r
    (dict_get d "bucket" (dict_get (StorageRunner.configuration r) "bucket" PNone))
    = Returns objects ->
  (forall (entry : dict) (rest : list value),
     objects = PDict entry :: rest -> dict_lookup "name" entry = None ->
     StorageRunner.run_query r query user = Returns (PNone, PStr "'name'")) /\
  (Forall (fun obj => exists entry : dict,
             obj = PDict entry /\ is_Some (dict_lookup "name" entry) /\
             is_Some (dict_lookup "last_modified" entry)) objects ->
   exists rows : list value,
     StorageRunner.run_query r query user
     = Returns (PDict [("columns",
                        PList [PDict [("name", PStr "object_name"); ("type", PStr "string")];
                               PDict [("name", PStr "last_modified"); ("type", PStr "date")]]);
                       ("rows", PList rows)], PNone) /\
     length rows = length objects).
Proof.
  intros Hq Hl. unfold StorageRunner.run_query.
  rewrite Hq, bind_Returns. cbn [py_get]. rewrite bind_Returns, Hl, bind_Returns.
  split.
  - intros entry rest -> Hname. cbn [mapM].
    by rewrite (base_row_of_missing_name _ Hname).
  - intros Hall.
    assert (Hrows : exists rows, mapM StorageRunner.row_of objects = Returns rows).
    { clear Hl. induction Hall as [|obj objects (entry & -> & [n Hn] & [m Hm]) _ IH].
      - by eexists.
      - destruct IH as [rows Hrows]. cbn [mapM].
        rewrite (base_row_of_present _ _ _ Hn Hm), bind_Returns, Hrows.
        by eexists. }
    destruct Hrows as [rows Hrows]. exists rows. rewrite Hrows.
    split; [reflexivity|]. by apply base_mapM_row_of_keys in Hrows as [_ Hlen].
Qed.

End RunnerQueries.

Section RunnerOnSamples.
Import Samples.

Lemma list_objects_one_bucket_witness :
  Minio.list_objects
    {| Minio.configuration := config; Minio.client := single_bucket_client |} PNone
  = Minio.list_objects runner PNone.
Proof.
  exact (@list_objects_one_bucket builtins runner
           {| Minio.configuration := config; Minio.client := single_bucket_client |}
           PNone eq_refl eq_refl).
Defined.

Lemma metadata_extends_listing_witness :
  exists metadata : value,
    Minio.get_metadata runner (PStr "file1.txt") = Returns metadata /\
    py_getitem metadata "etag" = Returns (PStr "etag1").
Proof.
  eexists. split; [reflexivity|].
  exact (@metadata_extends_listing builtins runner (PStr "file1.txt") file1 _ "etag" (PStr "etag1")
           eq_refl eq_refl eq_refl).
Defined.

Lemma run_query_non_object_command_witness :
  Minio.run_query runner "[]" PNone
  = Returns (PNone, PStr "'list' object has no attribute 'get'").
Proof.
  destruct (@run_query_non_object_command builtins runner "[]" PNone (PList []) eq_refl)
    as [Hminio _]; [discriminate|exact Hminio].
Defined.


Lemma run_query_reports_cause_witness :
  Minio.run_query unreachable_runner query_test PNone
  = Returns (PNone, PStr "Failed to list objects from bucket test: Failed to connect").
Proof.
  exact (@run_query_reports_cause builtins unreachable_runner query_test PNone
           [("bucket", PStr "test")] (Exn Exception "Failed to connect") eq_refl eq_refl).
Defined.

Lemma base_run_query_rows_match_columns_witness :
  exists columns rows : list value,
    declared_names columns = ["object_name"; "last_modified"] /\
    Forall (row_has_keys (declared_names columns)) rows.
Proof.
  assert (Hrun : exists data : value,
            @StorageRunner.run_query builtins _ _ runner query_test PNone
            = Returns (data, PNone)) by (eexists; cbv; reflexivity).
  destruct Hrun as [data Hrun].
  destruct (@base_run_query_rows_match_columns builtins _ _ runner query_test PNone
              data Hrun) as (columns & rows & _ & Hnames & Hkeys).
  by exists columns, rows.
Defined.

Lemma base_run_query_missing_key_witness :
  @StorageRunner.run_query builtins unit sizes_only_storage () "{}" PNone
  = Returns (PNone, PStr "'name'").
Proof.
  destruct (@base_run_query_missing_key builtins unit sizes_only_storage () "{}" PNone
              [] [PDict [("size", PInt 1)]] eq_refl eq_refl) as [Hmissing _].
  exact (Hmissing [("size", PInt 1)] [] eq_refl eq_refl).
Defined.

End RunnerOnSamples.

(** ** The request handler, continued *)

Section HandlerInvariants.
Import CustomSqlApi.
Context {Job : Type} `{Services Job}.
Implicit Types (job : Job) (try_count : Z) (d : dict) (e : exn).

Lemma error_messages_inj (key key' : error_key) :
  error_messages key = error_messages key' -> key = key'.
Proof. by destruct key, key'. Qed.

Lemma error_response_inj (m m' : string) (status status' : Z) :
  error_response m status = error_response m' status' -> m = m' /\ status = status'.
Proof. unfold error_response. by intros [= -> ->]. Qed.

(** X17.  The eight messages are pairwise different, so a failure response
    tells which error occurred: two failure responses built from the table
    are equal only if they were built for the same key. *)
Theorem error_messages_injective (key key' : error_key) (status status' : Z) :
  error_response (error_messages key) status
  = error_response (error_messages key') status' ->
  key = key'.
Proof. intros Hr. apply error_response_inj in Hr as [Hm _]. by apply error_messages_inj. Qed.

Lemma handle_exception_key e :
  exists key : error_key,
    handle_exception e = error_response (error_messages key) (status_of key) /\
    (key = sql_syntax_error \/ key = internal_server_error).
Proof.
  unfold handle_exception.
  destruct (exn_cls e);
    [exists internal_server_error|exists sql_syntax_error|exists internal_server_error..];
    auto.
Qed.

Lemma handle_exception_early e :
  exists key : error_key,
    handle_exception e = error_response (error_messages key) (status_of key) /\
    early_key key.
Proof.
  destruct (handle_exception_key e) as (key & Hk & [->| ->]);
    eexists; (split; [exact Hk|by split]).
Qed.

(** The keys a body that is not an object can be answered with. *)
Lemma post_non_object_aux (body : value) :
  request_get_json = Returns body ->
  (forall d, body <> PDict d) ->
  exists key : error_key,
    post = ([], error_response (error_messages key) (status_of key)) /\
    key ∈ [missing_fields; missing_query; missing_db_name; internal_server_error].
Proof.
  intros Hbody Hobj.
  assert (Hkey : forall key : error_key,
            key ∈ [missing_fields; missing_query; missing_db_name; internal_server_error] ->
            forall r : list event * response,
              r = ([], error_response (error_messages key) (status_of key)) ->
              exists key : error_key,
                r = ([], error_response (error_messages key) (status_of key)) /\
                key ∈ [missing_fields; missing_query; missing_db_name;
                       internal_server_error]) by (intros key Hk r ->; by exists key).
  assert (H1 : missing_fields
               ∈ [missing_fields; missing_query; missing_db_name; internal_server_error])
    by (rewrite !elem_of_cons; auto).
  assert (H2 : missing_query
               ∈ [missing_fields; missing_query; missing_db_name; internal_server_error])
    by (rewrite !elem_of_cons; auto).
  assert (H3 : missing_db_name
               ∈ [missing_fields; missing_query; missing_db_name; internal_server_error])
    by (rewrite !elem_of_cons; auto).
  assert (H4 : internal_server_error
               ∈ [missing_fields; missing_query; missing_db_name; internal_server_error])
    by (rewrite !elem_of_cons; auto).
  unfold post. rewrite Hbody.
  destruct body as [| b | z | f | s | l | d].
  - by apply (Hkey missing_fields).
  - destruct b; cbn.
    + by apply (Hkey internal_server_error).
    + by apply (Hkey missing_fields).
  - cbn -[Z.eqb]. destruct (z =? 0); cbn.
    + by apply (Hkey missing_fields).
    + by apply (Hkey internal_server_error).
  - cbn -[PrimFloat.eqb]. destruct (PrimFloat.eqb f PrimFloat.zero); cbn.
    + by apply (Hkey missing_fields).
    + by apply (Hkey internal_server_error).
  - cbn -[String.eqb str_contains].
    destruct (String.eqb s ""); cbn -[str_contains];
      [by apply (Hkey missing_fields)|].
    destruct (str_contains "query" s); cbn -[str_contains];
      [|by apply (Hkey missing_query)].
    destruct (str_contains "db_name" s); cbn;
      [|by apply (Hkey missing_db_name)].
    by apply (Hkey internal_server_error).
  - cbn -[existsb].
    destruct (is_empty l); cbn -[existsb]; [by apply (Hkey missing_fields)|].
    destruct (existsb (is_str "query") l); cbn -[existsb];
      [|by apply (Hkey missing_query)].
    destruct (existsb (is_str "db_name") l); cbn;
      [|by apply (Hkey missing_db_name)].
    by apply (Hkey internal_server_error).
  - by destruct (Hobj d).
Qed.

(** How a request can go: answered before anything is enqueued; or the
    enqueue itself raised; or validated, resolved and enqueued. *)
Lemma post_cases :
  (exists key : error_key,
     post = ([], error_response (error_messages key) (status_of key)) /\ early_key key) \/
  (exists d (q n : value) (ds : DataSource),
     request_get_json = Returns (PDict d) /\
     dict_lookup "query" d = Some q /\
     dict_lookup "db_name" d = Some n /\
     DataSource_first n = Returns (Some ds) /\
     ((exists e, enqueue_query q ds = Raises e /\
                 post = ([EnqueueQuery q ds], handle_exception e)) \/
      (exists job0 : Job, enqueue_query q ds = Returns job0))).
Proof.
  assert (Hearly : forall key : error_key, early_key key ->
            forall r : list event * response,
              r = ([], error_response (error_messages key) (status_of key)) ->
              exists key : error_key,
                r = ([], error_response (error_messages key) (status_of key)) /\
                early_key key) by (intros key Hk r ->; by exists key).
  assert (Hexn : forall e (r : list event * response),
            r = ([], handle_exception e) ->
            exists key : error_key,
              r = ([], error_response (error_messages key) (status_of key)) /\
              early_key key).
  { intros e r ->. destruct (handle_exception_early e) as (key & -> & Hk). by exists key. }
  destruct request_get_json as [body|e] eqn:Hbody.
  2: { left. apply (Hexn e). unfold post. by rewrite Hbody. }
  assert (Hobj : (exists d, body = PDict d) \/ (forall d, body <> PDict d)).
  { destruct body; try (by right); left; by eexists. }
  destruct Hobj as [[d ->]|Hobj].
  2: { left. destruct (post_non_object_aux body Hbody Hobj) as (key & Hpost & Hkey).
       exists key. split; [exact Hpost|].
       repeat (apply elem_of_cons in Hkey as [->|Hkey]; [by split|]).
       by apply elem_of_nil in Hkey. }
  unfold post. rewrite Hbody. cbn -[dict_lookup].
  destruct (is_empty d) eqn:Hd; cbn -[dict_lookup];
    [left; by apply (Hearly missing_fields)|].
  destruct (dict_lookup "query" d) as [q|] eqn:Hq; cbn -[dict_lookup];
    [|left; by apply (Hearly missing_query)].
  destruct (dict_lookup "db_name" d) as [n|] eqn:Hn; cbn -[dict_lookup];
    [|left; by apply (Hearly missing_db_name)].
  unfold dict_get. rewrite Hq, Hn.
  destruct (DataSource_first n) as [[ds|]|e] eqn:Hds; cbn.
  - right. exists d, q, n, ds. repeat (split; [done|]).
    destruct (enqueue_query q ds) as [job0|e] eqn:Henq; cbn.
    + right. by exists job0.
    + left. by exists e.
  - left. by apply (Hearly database_not_found).
  - left. by apply (Hexn e).
Qed.

Lemma poll_exit_aux (n : nat) job try_count (t : list event) (job' : Job) (try_count' : Z) :
  10 - try_count <= Z.of_nat n ->
  poll job try_count = (t, Returns (job', try_count')) ->
  exists k : nat,
    (k <= n)%nat /\
    t = rounds k /\
    try_count' = try_count + Z.of_nat k /\
    after_refreshes k job = Returns job' /\
    (job_result job' <> PNone \/ 10 <= try_count') /\
    (forall i : nat, (i < k)%nat ->
       exists job_i : Job,
         after_refreshes i job = Returns job_i /\ job_result job_i = PNone).
Proof.
  revert job try_count t. induction n as [|n IH]; intros job try_count t Hn Hpoll.
  - rewrite poll_stop in Hpoll by (right; lia). injection Hpoll as <- <- <-.
    exists O. repeat split; [lia|lia|right; lia|intros i Hi; lia].
  - destruct (PNone_cases (job_result job)) as [Hr|Hr].
    2: { rewrite poll_stop in Hpoll by auto. injection Hpoll as <- <- <-.
         exists O. repeat split; [lia|lia|by left|intros i Hi; lia]. }
    destruct (decide (try_count < 10)) as [Htc|Htc].
    2: { rewrite poll_stop in Hpoll by (right; lia). injection Hpoll as <- <- <-.
         exists O. repeat split; [lia|lia|right; lia|intros i Hi; lia]. }
    destruct (job_refresh job) as [job1|e] eqn:Hj.
    2: { by rewrite (poll_refresh_raises _ _ _ Hr Htc Hj) in Hpoll. }
    rewrite (poll_refresh _ _ _ Hr Htc Hj) in Hpoll.
    destruct (poll job1 (try_count + 1)) as [t1 r1] eqn:Hp1.
    cbn [fst snd] in Hpoll. injection Hpoll as <- ->.
    assert (Hn1 : 10 - (try_count + 1) <= Z.of_nat n) by lia.
    destruct (IH job1 (try_count + 1) t1 Hn1 Hp1)
      as (k & Hkn & -> & -> & Hk & Hexit & Hpending).
    exists (S k). split; [lia|]. split; [by rewrite rounds_S|]. split; [lia|].
    split; [by rewrite (after_refreshes_S _ _ _ Hj)|]. split; [done|].
    intros [|i] Hi; [by exists job|].
    destruct (Hpending i) as (job_i & Hji & Hri); [lia|].
    exists job_i. by rewrite (after_refreshes_S _ _ _ Hj).
Qed.

(** X18.  When the wait loop ends without an exception it has made [k]
    rounds, its counter has grown by [k] and has not passed ten (if it did
    not start beyond), the job it hands on is the job after [k] refreshes,
    every earlier state showed no result, and either the job now shows a
    result or the counter has reached ten. *)
Theorem poll_postcondition job try_count (t : list event) (job' : Job) (try_count' : Z) :
  poll job try_count = (t, Returns (job', try_count')) ->
  exists k : nat,
    t = rounds k /\
    try_count' = try_count + Z.of_nat k /\
    try_count' <= Z.max try_count 10 /\
    after_refreshes k job = Returns job' /\
    (job_result job' <> PNone \/ 10 <= try_count') /\
    (forall i : nat, (i < k)%nat ->
       exists job_i : Job,
         after_refreshes i job = Returns job_i /\ job_result job_i = PNone).
Proof.
  intros Hpoll.
  assert (Hn : 10 - try_count <= Z.of_nat (Z.to_nat (10 - try_count))) by lia.
  destruct (poll_exit_aux _ _ _ _ _ _ Hn Hpoll) as (k & Hk & Ht & Htc & Hrest).
  exists k. split; [done|]. split; [done|]. split; [lia|done].
Qed.

Lemma seconds_slept_rounds (k : nat) : seconds_slept (rounds k) = Z.of_nat k.
Proof.
  induction k as [|k IH]; [done|].
  rewrite rounds_S. cbn [seconds_slept foldr]. fold (seconds_slept (rounds k)). lia.
Qed.

(** X19.  Whatever the request and whatever the collaborators do (the
    serializer of the log line included, whether it returns or raises), the
    handler acts on the queue and the clock in one way only: it enqueues at
    most one query, and then sleeps one second and refreshes, at most ten
    times.  The events are none, or one enqueue followed by [k <= 10]
    rounds, and the seconds slept are [k]. *)
Theorem post_trace_shape :
  exists k : nat,
    (k <= 10)%nat /\ trace_shape (fst post) k /\ seconds_slept (fst post) = Z.of_nat k.
Proof.
  destruct post_cases as
    [(key & -> & _)
    |(d & q & n & ds & Hb & Hq & Hn & Hds & [(e & _ & ->)|(job0 & He)])].
  - exists O. split; [lia|]. split; [by left|done].
  - exists O. split; [lia|]. split; [right; by exists q, ds|done].
  - rewrite (post_from_poll _ _ _ _ _ Hb Hq Hn Hds He). cbn [fst].
    destruct (poll_trace 10 job0 0) as (k & Hk & ->); [lia|].
    exists k. split; [done|]. split; [right; by exists q, ds|].
    cbn [seconds_slept foldr]. apply seconds_slept_rounds.
Qed.

(** X20.  Every response is one of the two shapes: success with the rows
    and status 200, or failure with one of the eight messages and the
    status that belongs to it (400, 404, 408 or 500).  This holds on every
    path of the handler, those that end in an exception of a collaborator
    (the request, the lookup, the queue, the serializer of the log line,
    the result store) included. *)
Theorem post_response_well_formed : well_formed_response (snd post).
Proof.
  destruct post_cases as
    [(key & -> & _)
    |(d & q & n & ds & Hb & Hq & Hn & Hds & [(e & _ & ->)|(job0 & He)])].
  - right. by exists key.
  - right. destruct (handle_exception_key e) as (key & -> & _). by exists key.
  - rewrite (post_from_poll _ _ _ _ _ Hb Hq Hn Hds He). cbn [snd].
    assert (Hexn : forall e, well_formed_response (handle_exception e)).
    { intros e. right. destruct (handle_exception_key e) as (key & -> & _). by exists key. }
    destruct (snd (poll job0 0)) as [[job try_count]|e]; [|done].
    destruct (serialize_job job) as [logged|e]; [|done].
    destruct (is_None (job_result job)); [right; by exists query_timeout|].
    destruct (QueryResult_get (job_result job)) as [[query_result|]|e];
      [|right; by exists query_execution_failed|done].
    destruct (py_getitem (data query_result) "rows") as [rows|e]; [|done].
    left. by exists rows.
Qed.

(** X21.  The timeout response is only sent after the whole budget is
    used: if the response is 408 "Query execution timeout." then a query
    was enqueued, exactly ten rounds of sleeping and refreshing followed,
    the job showed no result reference before the first refresh and after
    each of the ten, and the job as the tenth refresh left it was
    serialized for the log line without an exception. *)
Theorem post_timeout_only_after_budget :
  snd post = error_response (error_messages query_timeout) 408 ->
  exists (q : value) (ds : DataSource) (job0 job_10 : Job) (logged : value),
    fst post = EnqueueQuery q ds :: rounds 10 /\
    enqueue_query q ds = Returns job0 /\
    pending_through 10 job0 /\
    after_refreshes 10 job0 = Returns job_10 /\
    serialize_job job_10 = Returns logged.
Proof.
  assert (Hexn : forall e,
            handle_exception e <> error_response (error_messages query_timeout) 408)
    by (intros e; apply handle_exception_not_late; by left).
  destruct post_cases as
    [(key & -> & Hearly)
    |(d & q & n & ds & Hb & Hq & Hn & Hds & [(e & _ & ->)|(job0 & He)])];
    cbn [fst snd].
  - intros Hr. apply error_response_inj in Hr as [Hm _].
    apply error_messages_inj in Hm as ->. by destruct Hearly as [Hne _].
  - intros Hr. by destruct (Hexn e).
  - rewrite (post_from_poll _ _ _ _ _ Hb Hq Hn Hds He). cbn [fst snd].
    destruct (poll job0 0) as [t [[job try_count]|e]] eqn:Hpoll; cbn [fst snd];
      [|intros Hr; by destruct (Hexn e)].
    assert (Hbudget : 10 - 0 <= Z.of_nat 10) by lia.
    destruct (poll_exit_aux _ _ _ _ _ _ Hbudget Hpoll)
      as (k & Hk & -> & -> & Hjk & Hexit & Hpending).
    destruct (serialize_job job) as [logged|e] eqn:Hlog;
      [|intros Hr; by destruct (Hexn e)].
    destruct (is_None (job_result job)) eqn:Hnone.
    + intros _. apply is_None_true in Hnone.
      destruct Hexit as [Hr|Hten]; [done|].
      assert (k = 10%nat) as -> by lia.
      exists q, ds, job0, job, logged. repeat (split; [done|]). split; [|done].
      intros i Hi. destruct (decide (i = 10%nat)) as [->|Hne]; [by exists job|].
      apply Hpending. lia.
    + destruct (QueryResult_get (job_result job)) as [[query_result|]|e].
      * destruct (py_getitem (data query_result) "rows") as [rows|e]; [discriminate|].
        intros Hr. by destruct (Hexn e).
      * intros Hr. apply error_response_inj in Hr as [Hm _]. discriminate Hm.
      * intros Hr. by destruct (Hexn e).
Qed.

(** X22.  Rows are never made up: a 200 response carries the ["rows"] of a
    stored result that was found under the reference the job showed, after
    a query was enqueued, at most ten rounds were made, and the job as the
    last refresh left it was serialized for the log line without an
    exception. *)
Theorem post_success_only_from_store (rows : value) :
  snd post = (PDict [("status", PStr "success"); ("result", rows)], 200) ->
  exists (q : value) (ds : DataSource) (k : nat) (job0 job_k : Job)
         (logged : value) (query_result : QueryResult),
    (k <= 10)%nat /\
    fst post = EnqueueQuery q ds :: rounds k /\
    enqueue_query q ds = Returns job0 /\
    after_refreshes k job0 = Returns job_k /\
    serialize_job job_k = Returns logged /\
    job_result job_k <> PNone /\
    QueryResult_get (job_result job_k) = Returns (Some query_result) /\
    py_getitem (data query_result) "rows" = Returns rows.
Proof.
  assert (Hexn : forall e,
            handle_exception e
            <> (PDict [("status", PStr "success"); ("result", rows)], 200))
    by (intros e; apply handle_exception_not_success).
  destruct post_cases as
    [(key & -> & Hearly)
    |(d & q & n & ds & Hb & Hq & Hn & Hds & [(e & _ & ->)|(job0 & He)])];
    cbn [fst snd].
  - discriminate.
  - intros Hr. by destruct (Hexn e).
  - rewrite (post_from_poll _ _ _ _ _ Hb Hq Hn Hds He). cbn [fst snd].
    destruct (poll job0 0) as [t [[job try_count]|e]] eqn:Hpoll; cbn [fst snd];
      [|intros Hr; by destruct (Hexn e)].
    assert (Hbudget : 10 - 0 <= Z.of_nat 10) by lia.
    destruct (poll_exit_aux _ _ _ _ _ _ Hbudget Hpoll)
      as (k & Hk & -> & -> & Hjk & _ & _).
    destruct (serialize_job job) as [logged|e] eqn:Hlog;
      [|intros Hr; by destruct (Hexn e)].
    destruct (is_None (job_result job)) eqn:Hnone; [discriminate|].
    apply is_None_false in Hnone.
    destruct (QueryResult_get (job_result job)) as [[query_result|]|e] eqn:Hget.
    + destruct (py_getitem (data query_result) "rows") as [rows'|e] eqn:Hrows.
      * intros [= <-]. by exists q, ds, k, job0, job, logged, query_result.
      * intros Hr. by destruct (Hexn e).
    + discriminate.
    + intros Hr. by destruct (Hexn e).
Qed.

(** X23.  A body that is not a JSON object never gets past validation:
    nothing is looked up or enqueued, and the answer is one of the three
    "missing" messages with 400 or, when the body breaks the membership
    test or the [.get] (a number, [true], a string or list holding both
    field names), the internal error with 500. *)
Theorem post_non_object_body (body : value) :
  request_get_json = Returns body ->
  (forall d, body <> PDict d) ->
  exists key : error_key,
    post = ([], error_response (error_messages key) (status_of key)) /\
    key ∈ [missing_fields; missing_query; missing_db_name; internal_server_error].
Proof. apply post_non_object_aux. Qed.

(** X24.  A stored result whose data has no ["rows"] is never answered as
    a success nor as "Query execution failed.".  When the job serializes
    for the log line, the [KeyError] of the subscript is answered as an
    internal error, 500; when the serialization raises, the store is not
    reached and the answer is the one for that exception (400 "SQL syntax
    error." for a [ProgrammingError], the internal error otherwise). *)
Theorem post_stored_result_without_rows d (q n : value) (ds : DataSource) (job0 : Job)
    (k : nat) (job_k : Job) (query_result : QueryResult) (stored : dict) :
  request_get_json = Returns (PDict d) ->
  dict_lookup "query" d = Some q ->
  dict_lookup "db_name" d = Some n ->
  DataSource_first n = Returns (Some ds) ->
  enqueue_query q ds = Returns job0 ->
  (k <= 10)%nat ->
  after_refreshes k job0 = Returns job_k ->
  job_result job_k <> PNone ->
  (forall i : nat, (i < k)%nat ->
     exists job_i : Job,
       after_refreshes i job0 = Returns job_i /\ job_result job_i = PNone) ->
  QueryResult_get (job_result job_k) = Returns (Some query_result) ->
  data query_result = PDict stored ->
  dict_lookup "rows" stored = None ->
  fst post = EnqueueQuery q ds :: rounds k /\
  (forall logged : value,
     serialize_job job_k = Returns logged ->
     snd post = error_response (error_messages internal_server_error) 500) /\
  (forall e, serialize_job job_k = Raises e -> snd post = handle_exception e) /\
  (forall rows : value,
     snd post <> (PDict [("status", PStr "success"); ("result", rows)], 200)) /\
  snd post <> error_response (error_messages query_execution_failed) 500.
Proof.
  intros Hb Hq Hn Hds He Hk Hjk Hr Hpending Hget Hdata Hrows.
  rewrite (post_from_poll _ _ _ _ _ Hb Hq Hn Hds He).
  rewrite (poll_resolved k job0 job_k 0) by (lia || done). cbn [fst snd].
  apply is_None_false in Hr as ->. rewrite Hget, Hdata. cbn [py_getitem].
  rewrite Hrows. split; [done|].
  destruct (serialize_job job_k) as [logged|e].
  - split; [done|]. split; [done|]. split; [|done]. by intros rows.
  - split; [done|]. split; [by intros e' [= <-]|]. split.
    + intros rows. apply handle_exception_not_success.
    + apply handle_exception_not_late. by right.
Qed.

(** X25.  An exception before anything is enqueued, from reading the body
    or from looking the data source up, ends the request with nothing
    enqueued: a [ProgrammingError] is answered 400 "SQL syntax error.",
    every other exception 500 with the generic message, which carries
    nothing of the exception's own text. *)
Theorem post_exception_before_enqueue e :
  (request_get_json = Raises e -> post = ([], handle_exception e)) /\
  (forall d (q n : value),
     request_get_json = Returns (PDict d) ->
     dict_lookup "query" d = Some q ->
     dict_lookup "db_name" d = Some n ->
     DataSource_first n = Raises e ->
     post = ([], handle_exception e)) /\
  (exn_cls e = ProgrammingError ->
     handle_exception e = error_response (error_messages sql_syntax_error) 400) /\
  (exn_cls e <> ProgrammingError ->
     handle_exception e = error_response (error_messages internal_server_error) 500).
Proof.
  split; [|split; [|split]].
  - intros Hb. unfold post. by rewrite Hb.
  - intros d q n Hb Hq Hn Hds.
    assert (Ht : truthy (PDict d) = true) by (by destruct d).
    unfold post. rewrite Hb. cbn -[truthy]. rewrite Ht. cbn.
    rewrite Hq. cbn. rewrite Hn. cbn. unfold dict_get. by rewrite Hn, Hds.
  - unfold handle_exception. by intros ->.
  - unfold handle_exception. by destruct (exn_cls e).
Qed.

Lemma poll_raises (k : nat) job (job_k : Job) e try_count :
  try_count + Z.of_nat k < 10 ->
  after_refreshes k job = Returns job_k ->
  pending_through k job ->
  job_refresh job_k = Raises e ->
  poll job try_count = (rounds (S k), Raises e).
Proof.
  revert job try_count. induction k as [|k IH]; intros job try_count Hk Hjk Hpending Hj.
  - injection Hjk as ->. destruct (Hpending O) as (job0 & [= <-] & Hr); [lia|].
    assert (Htc : try_count < 10) by lia.
    by rewrite (poll_refresh_raises _ _ _ Hr Htc Hj).
  - destruct (Hpending O) as (job0 & [= <-] & Hr); [lia|].
    apply after_refreshes_S_inv in Hjk as (job1 & Hj1 & Hjk).
    assert (Htc : try_count < 10) by lia.
    rewrite (poll_refresh _ _ _ Hr Htc Hj1).
    rewrite (IH job1 (try_count + 1)); [by rewrite (rounds_S (S k))|lia|done| |done].
    intros i Hi. destruct (Hpending (S i)) as (job_i & Hji & Hri); [lia|].
    exists job_i. by rewrite <- (after_refreshes_S _ _ _ Hj1).
Qed.

(** X26.  When a refresh of the job raises, the waiting stops there: after
    [k < 10] refreshes that showed no result, a failing refresh ends the
    request after [k + 1] rounds with the answer for that exception, and
    the job is not refreshed again. *)
Theorem post_refresh_exception d (q n : value) (ds : DataSource) (job0 : Job)
    (k : nat) (job_k : Job) e :
  request_get_json = Returns (PDict d) ->
  dict_lookup "query" d = Some q ->
  dict_lookup "db_name" d = Some n ->
  DataSource_first n = Returns (Some ds) ->
  enqueue_query q ds = Returns job0 ->
  (k < 10)%nat ->
  after_refreshes k job0 = Returns job_k ->
  pending_through k job0 ->
  job_refresh job_k = Raises e ->
  post = (EnqueueQuery q ds :: rounds (S k), handle_exception e).
Proof.
  intros Hb Hq Hn Hds He Hk Hjk Hpending Hj.
  rewrite (post_from_poll _ _ _ _ _ Hb Hq Hn Hds He).
  assert (Htc : 0 + Z.of_nat k < 10) by lia.
  by rewrite (poll_raises k job0 job_k e 0 Htc Hjk Hpending Hj).
Qed.

(** X28.  An exception from serializing the job for the log line decides
    the response, whatever the job and the result store hold: once the wait
    loop has ended after [k] rounds (the job shows a result, or the budget
    of ten is used), a failing serialization ends the request with the
    answer for that exception, 400 "SQL syntax error." for a
    [ProgrammingError] and the internal error otherwise, and no further
    round is made. *)
Theorem post_serialization_exception d (q n : value) (ds : DataSource) (job0 : Job)
    (k : nat) (job_k : Job) e :
  request_get_json = Returns (PDict d) ->
  dict_lookup "query" d = Some q ->
  dict_lookup "db_name" d = Some n ->
  DataSource_first n = Returns (Some ds) ->
  enqueue_query q ds = Returns job0 ->
  (k <= 10)%nat ->
  after_refreshes k job0 = Returns job_k ->
  (forall i : nat, (i < k)%nat ->
     exists job_i : Job,
       after_refreshes i job0 = Returns job_i /\ job_result job_i = PNone) ->
  job_result job_k <> PNone \/ k = 10%nat ->
  serialize_job job_k = Raises e ->
  post = (EnqueueQuery q ds :: rounds k, handle_exception e).
Proof.
  intros Hb Hq Hn Hds He Hk Hjk Hpending Hexit Hlog.
  rewrite (post_from_poll _ _ _ _ _ Hb Hq Hn Hds He).
  destruct (PNone_cases (job_result job_k)) as [Hr|Hr].
  - destruct Hexit as [Hne| ->]; [done|].
    destruct (poll_exhausted 10 job0 0) as (job_n & Hjn & _ & Hp); [lia| |].
    { intros i Hi. destruct (decide (i = 10%nat)) as [->|Hne]; [by exists job_k|].
      apply Hpending. lia. }
    rewrite Hjk in Hjn. injection Hjn as <-.
    rewrite Hp. cbn [fst snd]. by rewrite Hlog.
  - rewrite (poll_resolved k job0 job_k 0) by (lia || done). cbn [fst snd].
    by rewrite Hlog.
Qed.

End HandlerInvariants.

Section HandlerOnSamples.
Import Samples CustomSqlApi.

Lemma error_messages_injective_witness : missing_query = missing_query.
Proof. exact (error_messages_injective missing_query missing_query 400 400 eq_refl). Defined.

Lemma poll_postcondition_witness :
  exists k : nat,
    rounds 2 = rounds k /\ 2 = 0 + Z.of_nat k /\
    @after_refreshes nat prompt_services k 0%nat = Returns 2%nat.
Proof.
  assert (Hpoll : @poll nat prompt_services 0%nat 0 = (rounds 2, Returns (2%nat, 2)))
    by (vm_compute; reflexivity).
  destruct (@poll_postcondition nat prompt_services _ _ _ _ _ Hpoll)
    as (k & Ht & Htc & _ & Hjk & _).
  by exists k.
Defined.

Lemma post_timeout_only_after_budget_witness :
  exists (q : value) (ds : DataSource) (job0 job_10 : nat) (logged : value),
    fst (@post nat stuck_services) = EnqueueQuery q ds :: rounds 10 /\
    @enqueue_query nat stuck_services q ds = Returns job0 /\
    @pending_through nat stuck_services 10 job0 /\
    @after_refreshes nat stuck_services 10 job0 = Returns job_10 /\
    @serialize_job nat stuck_services job_10 = Returns logged.
Proof.
  apply (@post_timeout_only_after_budget nat stuck_services).
  vm_compute. reflexivity.
Defined.

Lemma post_success_only_from_store_witness :
  exists (k : nat) (job_k : nat) (logged : value) (query_result : QueryResult),
    (k <= 10)%nat /\
    @serialize_job nat prompt_services job_k = Returns logged /\
    py_getitem (data query_result) "rows" = Returns stored_rows.
Proof.
  destruct (@post_success_only_from_store nat prompt_services stored_rows)
    as (q & ds & k & job0 & job_k & logged & query_result
        & Hk & _ & _ & _ & Hlog & _ & _ & Hrows).
  - vm_compute. reflexivity.
  - by exists k, job_k, logged, query_result.
Defined.

Lemma post_non_object_body_witness :
  exists key : error_key,
    @post nat number_body_services
    = ([], error_response (error_messages key) (status_of key)) /\
    key ∈ [missing_fields; missing_query; missing_db_name; internal_server_error].
Proof.
  apply (@post_non_object_body nat number_body_services (PInt 5)); [reflexivity|].
  intros d. discriminate.
Defined.

Lemma post_stored_result_without_rows_witness :
  @post nat rowless_services
  = ([EnqueueQuery (PStr "select 1") warehouse],
     error_response (error_messages internal_server_error) 500) /\
  @post nat unloggable_rowless_services
  = ([EnqueueQuery (PStr "select 1") warehouse],
     error_response (error_messages sql_syntax_error) 400).
Proof.
  split.
  - destruct (@post_stored_result_without_rows nat rowless_services
                [("query", PStr "select 1"); ("db_name", PStr "warehouse")]
                (PStr "select 1") (PStr "warehouse") warehouse 0%nat 0%nat 0%nat
                rowless_result [("columns", PList [])])
      as (Htrace & Hlogged & _);
      [reflexivity|reflexivity|reflexivity|reflexivity|reflexivity|lia|reflexivity
      |discriminate|intros i Hi; lia|reflexivity|reflexivity|reflexivity|].
    rewrite (surjective_pairing (@post nat rowless_services)).
    by rewrite Htrace, (Hlogged _ eq_refl).
  - destruct (@post_stored_result_without_rows nat unloggable_rowless_services
                [("query", PStr "select 1"); ("db_name", PStr "warehouse")]
                (PStr "select 1") (PStr "warehouse") warehouse 0%nat 0%nat 0%nat
                rowless_result [("columns", PList [])])
      as (Htrace & _ & Hraised & _);
      [reflexivity|reflexivity|reflexivity|reflexivity|reflexivity|lia|reflexivity
      |discriminate|intros i Hi; lia|reflexivity|reflexivity|reflexivity|].
    rewrite (surjective_pairing (@post nat unloggable_rowless_services)).
    by rewrite Htrace, (Hraised _ eq_refl).
Defined.

Lemma post_refresh_exception_witness :
  @post nat lost_job_services
  = (EnqueueQuery (PStr "select 1") warehouse :: rounds 2,
     error_response (error_messages internal_server_error) 500).
Proof.
  apply (@post_refresh_exception nat lost_job_services
           [("query", PStr "select 1"); ("db_name", PStr "warehouse")]
           (PStr "select 1") (PStr "warehouse") warehouse 0%nat 1%nat 1%nat
           (Exn (OtherError "NoSuchJobError") "No such job"));
    try reflexivity; try lia.
  intros i Hi. destruct i as [|[|i]]; [by exists 0%nat|by exists 1%nat|lia].
Defined.

Lemma post_serialization_exception_witness :
  @post nat unloggable_prompt_services
  = (EnqueueQuery (PStr "select 1") warehouse :: rounds 2,
     error_response (error_messages internal_server_error) 500).
Proof.
  apply (@post_serialization_exception nat unloggable_prompt_services
           [("query", PStr "select 1"); ("db_name", PStr "warehouse")]
           (PStr "select 1") (PStr "warehouse") warehouse 0%nat 2%nat 2%nat
           unknown_status);
    [reflexivity|reflexivity|reflexivity|reflexivity|reflexivity|lia|reflexivity
    | |left; discriminate|reflexivity].
  intros i Hi. destruct i as [|[|i]]; [by exists 0%nat|by exists 1%nat|lia].
Defined.

End HandlerOnSamples.

(** ** The configuration schema *)

Section Schema.
Import StorageRunner.

(** X27.  The schema is consistent with itself: [order] lists the described
    fields, each once and in the order they are described; the required
    fields and the secret one are described fields; and every described
    field is either required or comes with a default, never both. *)
Theorem configuration_schema_consistent :
  schema_list "order" configuration_schema = schema_fields configuration_schema /\
  NoDup (schema_fields configuration_schema) /\
  schema_list "required" configuration_schema ⊆ schema_fields configuration_schema /\
  schema_list "secret" configuration_schema ⊆ schema_fields configuration_schema /\
  schema_list "required" configuration_schema ++ schema_defaulted configuration_schema
    = schema_fields configuration_schema.
Proof.
  split; [reflexivity|]. split; [compute_done|]. split; [compute_done|].
  split; [compute_done|reflexivity].
Qed.

End Schema.
